(** * PageVault backend: the catalog synchronisation protocol of [server.js]

    A shallow embedding of the Express handlers of [server.js] (list, upload,
    delete), of the GitHub Contents API helpers they call and of the identity
    derivation ([slugify], next id, blob path, genre colour), followed by the
    properties of the catalog protocol.

    Modelling conventions.
    - A JavaScript string is a [string]; inside [slugify], [trim] and
      [parseInt] its characters are read as code units in the Latin-1 range
      U+0000..U+00FF, which contains every character the patterns of
      [slugify] name.
    - A JavaScript number that holds an integer is a [Z]; the results of
      [parseInt] and of the sum in the next id are rounded as doubles are
      ([Js.round], [Js.number]).
    - A value that may be [undefined] or [null] is an [option].
    - [async] code runs in a state-and-exception monad over the remote store;
      every [fetch] is recorded in a trace. *)

From Stdlib Require Import List String Ascii ZArith NArith Bool Lia.
From Stdlib Require Import DecimalString.
From Stdlib Require DecimalPos.
Import ListNotations.
Local Open Scope string_scope.
Local Open Scope Z_scope.

Set Implicit Arguments.

(** ** Strings *)

Module Js.

Definition chars (s : string) : list ascii := list_ascii_of_string s.
Definition str (l : list ascii) : string := string_of_list_ascii l.

Definition code (c : ascii) : N := N_of_ascii c.

Definition in_range (lo hi : N) (c : ascii) : bool :=
  ((lo <=? code c) && (code c <=? hi))%N.

(** Upper-case letters of Latin-1: A-Z, U+00C0..U+00D6 and U+00D8..U+00DE;
    each is 32 below its lower-case letter. *)
Definition is_upper (c : ascii) : bool :=
  in_range 65 90 c || in_range 192 214 c || in_range 216 222 c.

Definition lower_char (c : ascii) : ascii :=
  if is_upper c then ascii_of_N (code c + 32) else c.

(** [String.prototype.toLowerCase]. *)
Definition toLowerCase (s : string) : string := str (map lower_char (chars s)).

(** White space and line terminators, the class [\s] of regular expressions
    and the characters [trim] removes: TAB, LF, VT, FF, CR, SP, NBSP. *)
Definition is_space (c : ascii) : bool :=
  in_range 9 13 c || in_range 32 32 c || in_range 160 160 c.

Fixpoint trimStart_chars (s : list ascii) : list ascii :=
  match s with
  | [] => []
  | c :: s' => if is_space c then trimStart_chars s' else s
  end.

Definition trim_chars (s : list ascii) : list ascii :=
  rev (trimStart_chars (rev (trimStart_chars s))).

(** [String.prototype.trim]. *)
Definition trim (s : string) : string := str (trim_chars (chars s)).

(** [s.replace(/[cls]/g, by)]: every character of the class is replaced. *)
Definition replace_each (cls : ascii -> bool) (by_ : list ascii) (s : list ascii)
  : list ascii :=
  flat_map (fun c => if cls c then by_ else [c]) s.

(** [s.replace(/[cls]+/g, by)]: every maximal run of characters of the class
    is replaced; [inrun] tells that the previous character was in a run. *)
Fixpoint replace_runs_from (cls : ascii -> bool) (by_ : list ascii)
         (inrun : bool) (s : list ascii) : list ascii :=
  match s with
  | [] => []
  | c :: s' =>
      if cls c
      then (if inrun then [] else by_) ++ replace_runs_from cls by_ true s'
      else c :: replace_runs_from cls by_ false s'
  end.

Definition replace_runs (cls : ascii -> bool) (by_ : list ascii) (s : list ascii)
  : list ascii :=
  replace_runs_from cls by_ false s.

(** [s.slice(0, n)]. *)
Definition slice0 (n : nat) (s : list ascii) : list ascii := firstn n s.

(** A value is truthy unless it is [undefined], [null] or the empty string. *)
Definition truthy (v : option string) : option string :=
  match v with
  | Some EmptyString => None
  | Some s => Some s
  | None => None
  end.

(** Decimal text of a number, as a template literal prints it. *)
Definition showZ (z : Z) : string := NilZero.string_of_int (Z.to_int z).
Definition showN (n : N) : string := NilZero.string_of_uint (N.to_uint n).

(** Numbers are IEEE 754 doubles; the model holds the integer-valued ones,
    as [Z].  Every integer of magnitude below 2^53 = 9007199254740992 is a
    double.  [round z] is the double nearest to the integer [z]: a 53-bit
    significand [q] and an exponent [e], the even significand on a tie. *)
Definition round (z : Z) : Z :=
  let a := Z.abs z in
  if a <? 9007199254740992 then z
  else
    let e := Z.log2 a - 52 in
    let q := Z.shiftr a e in
    let r := a - Z.shiftl q e in
    let half := Z.shiftl 1 (e - 1) in
    let up := (half <? r) || ((r =? half) && Z.odd q) in
    Z.sgn z * Z.shiftl (if up then q + 1 else q) e.

(** The number value of the integer [z]: [round z], or [None] when that is
    beyond the greatest double and the value is an infinity. *)
Definition number (z : Z) : option Z :=
  let d := round z in
  if Z.abs d <? 2 ^ 1024 then Some d else None.

End Js.

Notation "x |> f" := (f x) (at level 45, left associativity, only parsing).

(** ** Identity derivation *)

Definition hyphen : ascii := "-"%char.
Definition is_hyphen (c : ascii) : bool := Ascii.eqb c hyphen.

(** The class [[a-z0-9\s-]], whose complement [slugify] strips. *)
Definition slug_keep (c : ascii) : bool :=
  Js.in_range 97 122 c || Js.in_range 48 57 c || Js.is_space c || is_hyphen c.

(** [slugify], lines 99-106.  The accented classes are, in code units,
    U+00E0..E5 (a), U+00E8..EB (e), U+00EC..EF (i), U+00F2..F6 (o),
    U+00F9..FC (u) and U+00F1 (n). *)
Definition slugify (s : string) : string :=
  Js.chars (Js.toLowerCase s)
    |> Js.replace_each (Js.in_range 224 229) ["a"%char]
    |> Js.replace_each (Js.in_range 232 235) ["e"%char]
    |> Js.replace_each (Js.in_range 236 239) ["i"%char]
    |> Js.replace_each (Js.in_range 242 246) ["o"%char]
    |> Js.replace_each (Js.in_range 249 252) ["u"%char]
    |> Js.replace_each (Js.in_range 241 241) ["n"%char]
    |> Js.replace_each (fun c => negb (slug_keep c)) []
    |> Js.trim_chars
    |> Js.replace_runs Js.is_space [hyphen]
    |> Js.replace_runs is_hyphen [hyphen]
    |> Js.slice0 60
    |> Js.str.

(** [parseInt] with no radix argument: leading white space, an optional
    sign, an optional [0x] prefix, then the longest run of digits.
    [mathInt] is the integer these digits denote, with its sign, as the
    language definition names it; [parseInt] returns the number value of
    it.  [None] is a result that is no finite number, [NaN] or an infinity:
    the server compares the result with the ids of entries ([===] is then
    false for every finite id) and stores it as [year] ([JSON.stringify]
    writes [null] for both).  The definition of the language lets an
    implementation read the digits after the twentieth of a decimal text as
    zeros; the model reads them all. *)
Definition digit_value (radix : Z) (c : ascii) : option Z :=
  let n := Z.of_N (Js.code c) in
  let v := if Js.in_range 48 57 c then Some (n - 48)
           else if Js.in_range 97 122 c then Some (n - 87)
           else if Js.in_range 65 90 c then Some (n - 55)
           else None in
  match v with
  | Some d => if d <? radix then Some d else None
  | None => None
  end.

Fixpoint parse_digits (radix : Z) (acc : option Z) (s : list ascii) : option Z :=
  match s with
  | [] => acc
  | c :: s' =>
      match digit_value radix c with
      | Some d =>
          parse_digits radix
            (Some (match acc with Some a => a * radix + d | None => d end)) s'
      | None => acc
      end
  end.

Definition mathInt (s : string) : option Z :=
  let s1 := Js.trimStart_chars (Js.chars s) in
  let '(sign, s2) :=
    match s1 with
    | "-"%char :: r => (-1, r)
    | "+"%char :: r => (1, r)
    | _ => (1, s1)
    end in
  let '(radix, s3) :=
    match s2 with
    | "0"%char :: "x"%char :: r => (16, r)
    | "0"%char :: "X"%char :: r => (16, r)
    | _ => (10, s2)
    end in
  option_map (Z.mul sign) (parse_digits radix None s3).

Definition parseInt (s : string) : option Z :=
  match mathInt s with
  | Some z => Js.number z
  | None => None
  end.

(** ** Data model *)

(** The value of [genreColors[genre] || '#4a4a4a']: a colour string, or the
    member of [Object.prototype] found under an inherited key. *)
Inductive Color : Type :=
| Hex (s : string)
| Inherited (key : string).

(** A catalog entry.  [id] is [None] when the entry carries no id, and the
    integer the number [JSON.parse] read otherwise; the other fields have
    the shape the server writes. *)
Module Book.
Record t : Type := mk {
  id : option Z;
  title : string;
  author : string;
  genre : string;
  year : option Z;
  language : string;
  size : string;
  format : string;
  description : string;
  file : string;
  color : Color;
  uploadedAt : string
}.
End Book.

(** [req.file] as multer's memory storage leaves it. *)
Module File.
Record t : Type := mk {
  originalname : string;
  size : N;
  buffer : string
}.
End File.

(** The request of [POST /api/upload]: [req.file] and the text fields of
    [req.body], each absent or a string. *)
Module Upload.
Record t : Type := mk {
  file : option File.t;
  title : option string;
  author : option string;
  genre : option string;
  year : option string;
  language : option string;
  description : option string
}.
End Upload.

(** The request of [DELETE /api/books/:id]: the [Authorization] header and
    the route parameter. *)
Module Delete.
Record t : Type := mk {
  authorization : option string;
  id : string
}.
End Delete.

(** ** The remote store, as the GitHub Contents API presents it *)

Inductive Method : Type := GET | PUT.

(** The [content] of a PUT body, before its base64 encoding: the bytes of an
    uploaded file, or the catalog that [JSON.stringify] prints. *)
Inductive Payload : Type :=
| FileBytes (buffer : string)
| CatalogJson (books : list Book.t).

Module Body.
Record t : Type := mk {
  message : string;
  content : Payload;
  branch : string;
  sha : option string
}.
End Body.

(** A call of [fetch]: the method, the address and, for a PUT, the body.
    The headers are the constant [ghHeaders] of every call and are left
    out. *)
Module Request.
Record t : Type := mk {
  method : Method;
  url : string;
  body : option Body.t
}.
End Request.

(** What [JSON.parse(Buffer.from(data.content, 'base64').toString('utf-8'))]
    gives: an exception with its message, a JSON value that is not an array,
    or an array of entries. *)
Inductive Decoded : Type :=
| Unparsable (message : string)
| NotArray
| Entries (books : list Book.t).

(** The object [res.json()] resolves to: its [sha] member, if any, and the
    decoding of its [content] member. *)
Module Data.
Record t : Type := mk {
  sha : option string;
  content : Decoded
}.
End Data.

Inductive Json : Type :=
| NotJson (message : string)
| JsonObject (data : Data.t).

Module Response.
Record t : Type := mk {
  status : Z;
  text : string;
  json : Json
}.
End Response.

(** [res.ok]. *)
Definition ok (res : Response.t) : bool :=
  (200 <=? Response.status res) && (Response.status res <=? 299).

(** The promise [fetch] returns: rejected (network failure) or resolved. *)
Inductive FetchResult : Type :=
| Rejected (message : string)
| Resolved (res : Response.t).

(** The remote host: a state and its answer to each request. *)
Class Remote : Type := {
  Store : Type;
  serve : Store -> Request.t -> Store * FetchResult
}.

(** The environment variables the server reads at start-up. *)
Class Config : Type := {
  GITHUB_OWNER : string;
  GITHUB_REPO : string;
  GITHUB_BRANCH : string;
  ADMIN_SECRET : string
}.

(** [path.extname] of the Node.js standard library. *)
Class NodePath : Type := {
  extname : string -> string
}.

(** ** Asynchronous code: state, trace and exceptions *)

Inductive Line : Type :=
| Out (text : string)
| Err (text : string).

Module World.
Record t `{Remote} : Type := mk {
  store : Store;
  trace : list (Request.t * FetchResult);
  console : list Line
}.
Arguments mk {_} store trace console.
End World.

Inductive Outcome (A : Type) : Type :=
| Return (a : A)
| Throw (message : string).
Arguments Throw {A} message.

Definition M `{Remote} (A : Type) : Type := World.t -> Outcome A * World.t.

Definition ret `{Remote} {A : Type} (a : A) : M A := fun w => (Return a, w).

Definition throw `{Remote} {A : Type} (message : string) : M A :=
  fun w => (Throw message, w).

(** A computation that touches neither the host nor the console. *)
Definition lift `{Remote} {A : Type} (o : Outcome A) : M A := fun w => (o, w).

Definition bind `{Remote} {A B : Type} (m : M A) (k : A -> M B) : M B :=
  fun w =>
    match m w with
    | (Return a, w') => k a w'
    | (Throw message, w') => (Throw message, w')
    end.

Notation "x <- m ;; k" := (bind m (fun x => k))
  (at level 61, m at next level, right associativity).
Notation "m ;;; k" := (bind m (fun _ => k))
  (at level 61, right associativity).

(** [try { body } catch (err) { handler(err.message) }]. *)
Definition try_catch `{Remote} {A : Type} (body : M A) (handler : string -> M A)
  : M A :=
  fun w =>
    match body w with
    | (Return a, w') => (Return a, w')
    | (Throw message, w') => handler message w'
    end.

(** [await fetch(url, options)]: the host answers, the call is recorded, and
    a rejected promise is thrown. *)
Definition fetch `{Remote} (rq : Request.t) : M Response.t :=
  fun w =>
    let '(s', r) := serve (World.store w) rq in
    let w' := World.mk s' (World.trace w ++ [(rq, r)]) (World.console w) in
    match r with
    | Rejected message => (Throw message, w')
    | Resolved res => (Return res, w')
    end.

Definition console_log `{Remote} (text : string) : M unit :=
  fun w =>
    (Return tt,
     World.mk (World.store w) (World.trace w) (World.console w ++ [Out text])).

Definition console_error `{Remote} (text : string) : M unit :=
  fun w =>
    (Return tt,
     World.mk (World.store w) (World.trace w) (World.console w ++ [Err text])).

(** ** GitHub API helpers, lines 58-97 *)

Definition GH_API : string := "https://api.github.com".

(** [${GH_API}/repos/${GITHUB_OWNER}/${GITHUB_REPO}/contents/${filePath}]. *)
Definition contents_url `{Config} (filePath : string) : string :=
  GH_API ++ "/repos/" ++ GITHUB_OWNER ++ "/" ++ GITHUB_REPO ++ "/contents/"
         ++ filePath.

Definition get_request `{Config} (filePath : string) : Request.t :=
  Request.mk GET (contents_url filePath ++ "?ref=" ++ GITHUB_BRANCH) None.

(** What [getFileSHA] makes of the response, after the [fetch]. *)
Definition decode_sha (res : Response.t) : Outcome (option string) :=
  if Response.status res =? 404 then Return None
  else if negb (ok res)
  then Throw ("GitHub SHA error: " ++ Js.showZ (Response.status res) ++ " "
                ++ Response.text res)
  else match Response.json res with
       | NotJson message => Throw message
       | JsonObject data => Return (Data.sha data)
       end.

Definition getFileSHA `{Remote} `{Config} (filePath : string)
  : M (option string) :=
  res <- fetch (get_request filePath) ;;
  lift (decode_sha res).

(** [{ message, content, branch, ...(sha ? { sha } : {}) }]. *)
Definition put_request `{Config} (filePath : string) (content : Payload)
           (message : string) (sha : option string) : Request.t :=
  Request.mk PUT (contents_url filePath)
    (Some (Body.mk message content GITHUB_BRANCH (Js.truthy sha))).

(** What [commitFileToGitHub] makes of the response, after the [fetch]. *)
Definition decode_commit (res : Response.t) : Outcome Data.t :=
  if negb (ok res)
  then Throw ("GitHub commit failed (" ++ Js.showZ (Response.status res)
                ++ "): " ++ Response.text res)
  else match Response.json res with
       | NotJson message => Throw message
       | JsonObject data => Return data
       end.

Definition commitFileToGitHub `{Remote} `{Config} (filePath : string)
           (content : Payload) (message : string) (sha : option string)
  : M Data.t :=
  res <- fetch (put_request filePath content message sha) ;;
  lift (decode_commit res).

(** What [getBooksJson] makes of the response, after the [fetch]: a missing
    document is an empty catalog with no revision, a JSON value that is not
    an array is an empty catalog with the revision of the document. *)
Definition decode_books (res : Response.t)
  : Outcome (list Book.t * option string) :=
  if Response.status res =? 404 then Return ([], None)
  else if negb (ok res)
  then Throw ("Failed to fetch books.json: " ++ Js.showZ (Response.status res))
  else match Response.json res with
       | NotJson message => Throw message
       | JsonObject data =>
           match Data.content data with
           | Unparsable message => Throw message
           | NotArray => Return ([], Data.sha data)
           | Entries books => Return (books, Data.sha data)
           end
       end.

Definition getBooksJson `{Remote} `{Config} : M (list Book.t * option string) :=
  res <- fetch (get_request "books.json") ;;
  lift (decode_books res).

Definition saveBooksJson `{Remote} `{Config} (books : list Book.t)
           (sha : option string) : M Data.t :=
  commitFileToGitHub "books.json" (CatalogJson books)
    ("Update catalog — " ++ Js.showZ (Z.of_nat (List.length books)) ++ " books")
    sha.

(** ** Genre colours, lines 108-114 *)

Definition genreColors : list (string * string) :=
  [ ("Fiction", "#9c3d2e"); ("Non-Fiction", "#556b55"); ("Science", "#3a4a5a");
    ("History", "#7a5a2a"); ("Philosophy", "#4a5a7a"); ("Biography", "#5a4570");
    ("Poetry", "#7a4a2a"); ("Children", "#3a6b60"); ("Technology", "#2a5a6a");
    ("Religion & Spirituality", "#6a5535"); ("Politics & Society", "#5a3a5a");
    ("Art & Culture", "#6a3a4a"); ("Other", "#4a4a4a") ].

(** The keys every object literal inherits from [Object.prototype]; each
    holds a function or an object, hence a truthy value. *)
Definition Object_prototype_keys : list string :=
  [ "constructor"; "__defineGetter__"; "__defineSetter__"; "hasOwnProperty";
    "__lookupGetter__"; "__lookupSetter__"; "isPrototypeOf";
    "propertyIsEnumerable"; "toString"; "valueOf"; "__proto__";
    "toLocaleString" ].

Fixpoint own_property (key : string) (object : list (string * string))
  : option string :=
  match object with
  | [] => None
  | (k, v) :: rest => if String.eqb k key then Some v else own_property key rest
  end.

(** [genreColors[genre]]: an own property, else an inherited one, else
    [undefined]. *)
Definition genreColors_get (genre : string) : option Color :=
  match own_property genre genreColors with
  | Some c => Some (Hex c)
  | None =>
      if existsb (String.eqb genre) Object_prototype_keys
      then Some (Inherited genre)
      else None
  end.

(** [genreColors[genre] || '#4a4a4a']: every value of the table and of the
    prototype is truthy. *)
Definition color_of (genre : string) : Color :=
  match genreColors_get genre with
  | Some v => v
  | None => Hex "#4a4a4a"
  end.

(** ** Routes, lines 116-198 *)

(** What a handler sends: [{ success: false, error }] with its status, or
    one of the three success bodies (status 200). *)
Inductive Reply : Type :=
| ErrorReply (status : Z) (error : string)
| BooksReply (count : nat) (books : list Book.t)
| UploadReply (message : string) (book : Book.t) (total : nat)
| DeleteReply (message : string) (removed : Book.t).

Definition status_of (r : Reply) : Z :=
  match r with
  | ErrorReply status _ => status
  | _ => 200
  end.

Definition dquote : string := String (ascii_of_nat 34) EmptyString.

(** [GET /api/books]. *)
Definition listBooks `{Remote} `{Config} : M Reply :=
  try_catch
    (r <- getBooksJson ;;
     let '(books, _) := r in
     ret (BooksReply (List.length books) books))
    (fun message =>
       console_error ("GET /api/books: " ++ message) ;;;
       ret (ErrorReply 500 "Failed to fetch books catalog.")).

(** [path.extname(req.file.originalname).toLowerCase()]. *)
Definition ext_of `{NodePath} (f : File.t) : string :=
  Js.toLowerCase (extname (File.originalname f)).

Definition format_of (ext : string) : string :=
  if String.eqb ext ".epub" then "EPUB" else "PDF".

Definition filePath_of (title author ext : string) : string :=
  "books/" ++ (slugify title ++ "-" ++ slugify author ++ ext).

(** [(size / (1024 * 1024)).toFixed(1) + ' MB']: the quotient is exact, and
    [toFixed] rounds it to the nearest tenth, upwards on a tie. *)
Definition fileSize_of (size : N) : string :=
  let tenths := ((10 * size + 524288) / 1048576)%N in
  Js.showN (tenths / 10)%N ++ "." ++ Js.showN (tenths mod 10)%N ++ " MB".

(** [b.id || 0]. *)
Definition id_or_0 (b : Book.t) : Z :=
  match Book.id b with
  | Some 0 => 0
  | Some n => n
  | None => 0
  end.

(** [Math.max(x, ...xs)]. *)
Definition Math_max (x : Z) (xs : list Z) : Z := fold_left Z.max xs x.

(** [books.length > 0 ? Math.max(...books.map(b => b.id || 0)) + 1 : 1].
    The greatest id is a double and the sum is rounded to one: above 2^53
    the sum may be the greatest id itself. *)
Definition nextId (books : list Book.t) : Z :=
  match map id_or_0 books with
  | [] => 1
  | x :: xs => Js.round (Math_max x xs + 1)
  end.

(** The object literal [newBook], lines 155-168. *)
Definition newBook `{NodePath} (f : File.t) (title author genre : string)
           (req : Upload.t) (now : string) (books : list Book.t) : Book.t :=
  let ext := ext_of f in
  {| Book.id := Some (nextId books);
     Book.title := Js.trim title;
     Book.author := Js.trim author;
     Book.genre := Js.trim genre;
     Book.year := match Js.truthy (Upload.year req) with
                  | Some year => parseInt year
                  | None => None
                  end;
     Book.language := Js.trim match Js.truthy (Upload.language req) with
                              | Some language => language
                              | None => "English"
                              end;
     Book.size := fileSize_of (File.size f);
     Book.format := format_of ext;
     Book.description := Js.trim match Js.truthy (Upload.description req) with
                                 | Some description => description
                                 | None => ""
                                 end;
     Book.file := filePath_of title author ext;
     Book.color := color_of genre;
     Book.uploadedAt := now |}.

(** The body of the upload handler once the four checks have passed. *)
Definition upload_valid `{Remote} `{Config} `{NodePath} (f : File.t)
           (title author genre : string) (req : Upload.t) (now : string)
  : M Reply :=
  let filePath := filePath_of title author (ext_of f) in
  console_log ("Uploading: " ++ filePath ++ " (" ++ fileSize_of (File.size f)
                 ++ ")") ;;;
  existingSHA <- getFileSHA filePath ;;
  commitFileToGitHub filePath (FileBytes (File.buffer f))
    ("Add: " ++ title ++ " by " ++ author) existingSHA ;;;
  r <- getBooksJson ;;
  let '(books, booksSHA) := r in
  let book := newBook f title author genre req now books in
  let books := (books ++ [book])%list in
  saveBooksJson books booksSHA ;;;
  console_log (dquote ++ title ++ dquote ++ " added. Total: "
                 ++ Js.showZ (Z.of_nat (List.length books))) ;;;
  ret (UploadReply
         (dquote ++ title ++ dquote ++ " has been added to the library!")
         book (List.length books)).

(** [POST /api/upload]; [now] is [new Date().toISOString()]. *)
Definition upload `{Remote} `{Config} `{NodePath} (req : Upload.t)
           (now : string) : M Reply :=
  try_catch
    (match Upload.file req with
     | None => ret (ErrorReply 400 "No file uploaded.")
     | Some f =>
     match Js.truthy (Upload.title req) with
     | None => ret (ErrorReply 400 "Title is required.")
     | Some title =>
     match Js.truthy (Upload.author req) with
     | None => ret (ErrorReply 400 "Author is required.")
     | Some author =>
     match Js.truthy (Upload.genre req) with
     | None => ret (ErrorReply 400 "Genre is required.")
     | Some genre => upload_valid f title author genre req now
     end end end end)
    (fun message =>
       console_error ("POST /api/upload: " ++ message) ;;;
       ret (ErrorReply 500
              match message with
              | EmptyString => "Upload failed. Please try again."
              | _ => message
              end)).

(** [b.id === id], where [id] is the result of [parseInt]. *)
Definition same_id (id : option Z) (b : Book.t) : bool :=
  match Book.id b, id with
  | Some x, Some y => x =? y
  | _, _ => false
  end.

(** [Array.prototype.findIndex]; [None] is [-1]. *)
Fixpoint findIndex {A : Type} (p : A -> bool) (l : list A) : option nat :=
  match l with
  | [] => None
  | x :: rest => if p x then Some O else option_map S (findIndex p rest)
  end.

(** [books.splice(idx, 1)]: the array that stays. *)
Definition splice1 {A : Type} (idx : nat) (l : list A) : list A :=
  (firstn idx l ++ skipn (S idx) l)%list.

(** [DELETE /api/books/:id]. *)
Definition deleteBook `{Remote} `{Config} (req : Delete.t) : M Reply :=
  if negb match Delete.authorization req with
          | Some header => String.eqb header ("Bearer " ++ ADMIN_SECRET)
          | None => false
          end
  then ret (ErrorReply 401 "Unauthorized.")
  else
    try_catch
      (let id := parseInt (Delete.id req) in
       r <- getBooksJson ;;
       let '(books, sha) := r in
       match findIndex (same_id id) books with
       | None => ret (ErrorReply 404 "Book not found.")
       | Some idx =>
           match nth_error books idx with
           | None => throw "Cannot read properties of undefined (reading 'title')"
           | Some removed =>
               saveBooksJson (splice1 idx books) sha ;;;
               ret (DeleteReply
                      (dquote ++ Book.title removed ++ dquote ++ " removed.")
                      removed)
           end
       end)
      (fun message =>
         console_error ("DELETE /api/books: " ++ message) ;;;
         ret (ErrorReply 500 message)).

(** A request handled from a fresh trace and console. *)
Definition run `{Remote} {A : Type} (m : M A) (s : Store) : Outcome A * World.t :=
  m (World.mk s [] []).

(** ** Scenarios: a scripted host and sample requests *)

(** A host that answers from a script, one entry per request, and drops the
    connection once the script is used up. *)
Definition scripted : Remote :=
  {| Store := list FetchResult;
     serve := fun s _ =>
                match s with
                | [] => ([], Rejected "socket hang up")
                | r :: s' => (s', r)
                end |}.

Definition sample_config : Config :=
  {| GITHUB_OWNER := "octo";
     GITHUB_REPO := "Pages";
     GITHUB_BRANCH := "main";
     ADMIN_SECRET := "changeme-admin-secret" |}.

(** A stand-in for [path.extname] on plain file names: the suffix that
    starts at the last dot. *)
Fixpoint last_dot_suffix (s : list ascii) : option (list ascii) :=
  match s with
  | [] => None
  | c :: s' =>
      match last_dot_suffix s' with
      | Some e => Some e
      | None => if Ascii.eqb c "."%char then Some s else None
      end
  end.

Definition sample_path : NodePath :=
  {| extname := fun name =>
                  match last_dot_suffix (Js.chars name) with
                  | Some e => Js.str e
                  | None => ""
                  end |}.

(** Responses of the host: no such file, a file with its revision, a commit
    accepted, a failure with its status and body. *)
Definition absent : FetchResult :=
  Resolved (Response.mk 404 "Not Found"
              (JsonObject (Data.mk None (Unparsable "undefined content")))).

Definition found (sha : option string) (content : Decoded) : FetchResult :=
  Resolved (Response.mk 200 "" (JsonObject (Data.mk sha content))).

Definition committed : FetchResult :=
  Resolved (Response.mk 201 ""
              (JsonObject (Data.mk None (Unparsable "undefined content")))).

Definition failed (status : Z) (text : string) : FetchResult :=
  Resolved (Response.mk status text (NotJson "Unexpected token")).

Definition sample_file : File.t :=
  File.mk "Moby Dick (1851).PDF" 1468006 "%PDF-1.4".

Definition moby_dick : Upload.t :=
  Upload.mk (Some sample_file) (Some "Moby Dick") (Some "Herman Melville")
    (Some "Fiction") (Some "1851") None None.

Definition entry (id : option Z) (title : string) : Book.t :=
  Book.mk id title "Anonymous" "Other" None "English" "0.1 MB" "PDF" ""
    ("books/" ++ slugify title ++ "-anonymous.pdf") (Hex "#4a4a4a")
    "2024-01-01T00:00:00.000Z".

Definition admin_delete (id : string) : Delete.t :=
  Delete.mk (Some "Bearer changeme-admin-secret") id.

Definition two_books : list Book.t := [entry (Some 3) "A"; entry (Some 7) "B"].

(** The host during an upload that meets no obstacle: the blob is new, the
    commit is accepted, the catalog is [catalog] at revision [sha], the
    catalog commit is accepted. *)
Definition smooth_upload (sha : option string) (catalog : Decoded)
  : list FetchResult :=
  [absent; committed; found sha catalog; committed].

Definition with_genre (genre : string) : Upload.t :=
  Upload.mk (Some sample_file) (Some "Moby Dick") (Some "Herman Melville")
    (Some genre) (Some "1851") None None.

(** An upload whose file is there but holds no byte. *)
Definition empty_file_upload : Upload.t :=
  Upload.mk (Some (File.mk "blank.pdf" 0 "")) (Some "Moby Dick")
    (Some "Herman Melville") (Some "Fiction") None None None.

Definition untitled_upload : Upload.t :=
  Upload.mk (Some sample_file) (Some "") (Some "Herman Melville")
    (Some "Fiction") None None None.

(** ** Specification vocabulary *)

(** The characters of a slug: [[a-z0-9-]]. *)
Definition slug_char (c : ascii) : bool :=
  Js.in_range 97 122 c || Js.in_range 48 57 c || is_hyphen c.

(** No two hyphens in a row. *)
Fixpoint single_hyphens (s : list ascii) : bool :=
  match s with
  | [] => true
  | c :: rest =>
      match rest with
      | [] => true
      | d :: _ => negb (is_hyphen c && is_hyphen d) && single_hyphens rest
      end
  end.

Definition head_is (cls : ascii -> bool) (s : list ascii) : bool :=
  match s with
  | [] => false
  | c :: _ => cls c
  end.

Definition begins_with_hyphen (s : string) : bool := head_is is_hyphen (Js.chars s).
Definition ends_with_hyphen (s : string) : bool :=
  head_is is_hyphen (rev (Js.chars s)).

(** A slug in normal form: slug characters only, single hyphens, at most 60
    characters. *)
Definition slug_normal (l : list ascii) : Prop :=
  forallb slug_char l = true /\ single_hyphens l = true /\ (List.length l <= 60)%nat.

(** [slugify] in the words of its description, to be compared with the
    chain of replacements above: lower-case every character, map the
    accented letters to their base letter, keep only [[a-z0-9\s-]], trim
    white space at both ends, turn every run of white space and hyphens
    into one hyphen, keep the first 60 characters. *)
Definition unaccent (c : ascii) : ascii :=
  if Js.in_range 224 229 c then "a"%char
  else if Js.in_range 232 235 c then "e"%char
  else if Js.in_range 236 239 c then "i"%char
  else if Js.in_range 242 246 c then "o"%char
  else if Js.in_range 249 252 c then "u"%char
  else if Js.in_range 241 241 c then "n"%char
  else c.

Definition separator (c : ascii) : bool := Js.is_space c || is_hyphen c.

Fixpoint squeeze (s : list ascii) : list ascii :=
  match s with
  | [] => []
  | c :: rest =>
      if separator c
      then match squeeze rest with
           | [] => [hyphen]
           | d :: out => if is_hyphen d then d :: out else hyphen :: d :: out
           end
      else c :: squeeze rest
  end.

(** A list without its leading hyphen, if it has one. *)
Definition strip_hyphen (s : list ascii) : list ascii :=
  match s with
  | [] => []
  | d :: out => if is_hyphen d then out else d :: out
  end.

Definition slugify_described (s : string) : string :=
  Js.str
    (firstn 60
       (squeeze
          (Js.trim_chars
             (filter slug_keep
                (map unaccent (map Js.lower_char (Js.chars s))))))).

(** The three operations on the catalog. *)
Inductive Operation : Type :=
| ListBooks
| UploadBook (req : Upload.t) (now : string)
| DeleteBook (req : Delete.t).

Definition handle `{Remote} `{Config} `{NodePath} (op : Operation) : M Reply :=
  match op with
  | ListBooks => listBooks
  | UploadBook req now => upload req now
  | DeleteBook req => deleteBook req
  end.

(** A write of the catalog document: a PUT addressed to [books.json]. *)
Definition is_catalog_write `{Config} (rq : Request.t) : Prop :=
  Request.method rq = PUT /\ Request.url rq = contents_url "books.json".

(** The revision token a request presents: the [sha] member of its body. *)
Definition presented_token (rq : Request.t) : option string :=
  match Request.body rq with
  | Some b => Body.sha b
  | None => None
  end.

(** The catalog a request writes. *)
Definition written_catalog (rq : Request.t) : option (list Book.t) :=
  match Request.body rq with
  | Some b =>
      match Body.content b with
      | CatalogJson books => Some books
      | FileBytes _ => None
      end
  | None => None
  end.

(** Absent or empty. *)
Definition blank (v : option string) : bool :=
  match v with
  | None => true
  | Some EmptyString => true
  | Some _ => false
  end.

Inductive Field : Type := FileField | TitleField | AuthorField | GenreField.

(** The first required part of an upload that is missing: the file when it
    is absent, else the first text field that is absent or empty. *)
Definition missing_field (req : Upload.t) : option Field :=
  match Upload.file req with
  | None => Some FileField
  | Some _ =>
      if blank (Upload.title req) then Some TitleField
      else if blank (Upload.author req) then Some AuthorField
      else if blank (Upload.genre req) then Some GenreField
      else None
  end.

Definition field_error (fld : Field) : string :=
  match fld with
  | FileField => "No file uploaded."
  | TitleField => "Title is required."
  | AuthorField => "Author is required."
  | GenreField => "Genre is required."
  end.

Definition thrown {A : Type} (o : Outcome A) : option string :=
  match o with
  | Throw message => Some message
  | Return _ => None
  end.

(** The message of the error a remote call ends in, if it fails: the
    rejection of the [fetch], or what the helper that issued the request
    throws on the response. *)
Definition failure `{Config} (e : Request.t * FetchResult) : option string :=
  match snd e with
  | Rejected message => Some message
  | Resolved res =>
      match Request.method (fst e) with
      | PUT => thrown (decode_commit res)
      | GET =>
          if String.eqb (Request.url (fst e))
                        (Request.url (get_request "books.json"))
          then thrown (decode_books res)
          else thrown (decode_sha res)
      end
  end.

(** The error text each handler sends for a caught error. *)
Definition client_text (op : Operation) (message : string) : string :=
  match op with
  | ListBooks => "Failed to fetch books catalog."
  | UploadBook _ _ =>
      match message with
      | EmptyString => "Upload failed. Please try again."
      | _ => message
      end
  | DeleteBook _ => message
  end.

(** The line each handler logs for a caught error. *)
Definition logged (op : Operation) (message : string) : Line :=
  match op with
  | ListBooks => Err ("GET /api/books: " ++ message)
  | UploadBook _ _ => Err ("POST /api/upload: " ++ message)
  | DeleteBook _ => Err ("DELETE /api/books: " ++ message)
  end.

(** A response whose body, or whose [content] member, does not parse. *)
Definition unparsable (res : Response.t) : Prop :=
  match Response.json res with
  | NotJson _ => True
  | JsonObject data =>
      match Data.content data with
      | Unparsable _ => True
      | _ => False
      end
  end.

(** ** Start-up, upload filter and error middleware, lines 20-56 and 200-205 *)

(** [process.env]: each variable is absent or a string. *)
Definition Env : Type := string -> option string.

(** [process.env.NAME || fallback]. *)
Definition or_default (v : option string) (fallback : string) : string :=
  match Js.truthy v with
  | Some text => text
  | None => fallback
  end.

(** The configuration the server runs with, lines 21-31; [None] is
    [process.exit(1)]. *)
Definition startup (env : Env) : option Config :=
  match Js.truthy (env "GITHUB_TOKEN") with
  | None => None
  | Some _ =>
  match Js.truthy (env "GITHUB_OWNER") with
  | None => None
  | Some owner =>
  match Js.truthy (env "GITHUB_REPO") with
  | None => None
  | Some repo =>
      Some {| GITHUB_OWNER := owner;
              GITHUB_REPO := repo;
              GITHUB_BRANCH := or_default (env "GITHUB_BRANCH") "main";
              ADMIN_SECRET :=
                or_default (env "ADMIN_SECRET") "changeme-admin-secret" |}
  end end end.

(** An error as the middleware reads it: its [code] and [message], each
    possibly undefined, and the text [console.error] prints for it. *)
Module Failure.
Record t : Type := mk {
  code : option string;
  message : option string;
  shown : string
}.
End Failure.

(** [new Error(message)]. *)
Definition new_Error (message : string) : Failure.t :=
  Failure.mk None (Some message) ("Error: " ++ message).

(** [fileFilter], lines 51-55: [None] is [cb(null, true)], [Some err] is
    [cb(err)]. *)
Definition fileFilter `{NodePath} (f : File.t) : option Failure.t :=
  let ext := Js.toLowerCase (extname (File.originalname f)) in
  if existsb (String.eqb ext) [".pdf"; ".epub"] then None
  else Some (new_Error "Only PDF and EPUB files are accepted.").

(** [hay.includes(needle)]. *)
Fixpoint includes (needle hay : string) : bool :=
  String.prefix needle hay ||
  match hay with
  | EmptyString => false
  | String _ rest => includes needle rest
  end.

(** The error middleware, lines 200-205: the reply and what it logs. *)
Definition errorHandler (err : Failure.t) : Reply * list Line :=
  if match Failure.code err with
     | Some code => String.eqb code "LIMIT_FILE_SIZE"
     | None => false
     end
  then (ErrorReply 400 "File too large. Max 50 MB.", [])
  else
    match Failure.message err with
    | Some message =>
        if includes "Only PDF" message then (ErrorReply 400 message, [])
        else (ErrorReply 500 "Internal server error.",
              [Err ("Unhandled error: " ++ Failure.shown err)])
    | None =>
        (ErrorReply 500 "Internal server error.",
         [Err ("Unhandled error: " ++ Failure.shown err)])
    end.

(** ** Further vocabulary *)

(** Neither the first nor the last character is white space. *)
Definition trimmed (s : string) : Prop :=
  head_is Js.is_space (Js.chars s) = false /\
  head_is Js.is_space (rev (Js.chars s)) = false.

(** A decimal digit. *)
Definition is_digit (c : ascii) : bool := Js.in_range 48 57 c.

(** A character that ends a decimal number for [parseInt] and cannot turn
    a leading zero into the prefix [0x]. *)
Definition stops (c : ascii) : bool :=
  negb (is_digit c) && negb (Ascii.eqb c "x") && negb (Ascii.eqb c "X").

(** Text that may follow a number: nothing, or text that starts with such
    a character. *)
Definition ends_number (rest : list ascii) : bool :=
  match rest with
  | [] => true
  | c :: _ => stops c
  end.

(** The number [fileSize_of] prints, in tenths of a megabyte. *)
Definition size_tenths (size : N) : N := ((10 * size + 524288) / 1048576)%N.

(** The characters [slugify] tells apart: lower case, without the accents
    it folds. *)
Definition folded (s : string) : list ascii :=
  map unaccent (map Js.lower_char (Js.chars s)).

(** The address of the catalog for a GET. *)
Definition is_catalog_read `{Config} (rq : Request.t) : Prop :=
  rq = get_request "books.json".

(** More sample data: a host whose catalog fetch fails after the blob was
    committed, an environment without [ADMIN_SECRET], three entries of
    which two share an id, a title of white space. *)
Definition catalog_down : list FetchResult :=
  [absent; committed; failed 503 "Service Unavailable"].

Definition bare_env : Env :=
  fun name =>
    if String.eqb name "GITHUB_TOKEN" then Some "ghp_token"
    else if String.eqb name "GITHUB_OWNER" then Some "octo"
    else if String.eqb name "GITHUB_REPO" then Some "Pages"
    else None.

Definition three_books : list Book.t :=
  [entry (Some 3) "A"; entry (Some 7) "B"; entry (Some 7) "C"].

Definition blank_title_upload : Upload.t :=
  Upload.mk (Some sample_file) (Some "   ") (Some "Herman Melville")
    (Some "Fiction") None None None.

(** An integer that the arithmetic of doubles keeps exact:
    [Number.isSafeInteger]. *)
Definition safe_integer (z : Z) : Prop := Z.abs z < 9007199254740992.

(** The contract of the host for a read (the contents API of GitHub): an
    answer 2xx to a GET describes the file, and the [sha] it names is a
    non-empty string. *)
Definition names_revision (e : Request.t * FetchResult) : bool :=
  match Request.method (fst e), snd e with
  | GET, Resolved res =>
      if ok res
      then match Response.json res with
           | JsonObject data =>
               match Data.sha data with
               | Some (String _ _) => true
               | _ => false
               end
           | NotJson _ => true
           end
      else true
  | _, _ => true
  end.

(** A catalog whose only entry has the id 2^53. *)
Definition crowded : list Book.t := [entry (Some 9007199254740992) "A"].

(** The upload of the samples, its entry and its two writes. *)
Definition moby_host : list FetchResult :=
  smooth_upload (Some "abc") (Entries two_books).

Definition moby_entry : Book.t :=
  @newBook sample_path sample_file "Moby Dick" "Herman Melville" "Fiction"
           moby_dick "NOW" two_books.

Definition moby_blob_put : Request.t :=
  @put_request sample_config "books/moby-dick-herman-melville.pdf"
               (FileBytes "%PDF-1.4") "Add: Moby Dick by Herman Melville" None.

Definition moby_catalog_put : Request.t :=
  @put_request sample_config "books.json"
               (CatalogJson (two_books ++ [moby_entry]))
               "Update catalog — 3 books" (Some "abc").

(** The first upload ever: the host has no catalog yet. *)
Definition first_catalog_put : Request.t :=
  @put_request sample_config "books.json"
               (CatalogJson
                  [@newBook sample_path sample_file "Moby Dick"
                            "Herman Melville" "Fiction" moby_dick "NOW" []])
               "Update catalog — 1 books" None.

(** The write of a delete of id 7 from [three_books]. *)
Definition delete_7_put : Request.t :=
  @put_request sample_config "books.json"
               (CatalogJson [entry (Some 3) "A"; entry (Some 7) "C"])
               "Update catalog — 2 books" (Some "abc").

Definition blank_title_put : Request.t :=
  @put_request sample_config "books.json"
               (CatalogJson
                  [@newBook sample_path sample_file "   " "Herman Melville"
                            "Fiction" blank_title_upload "NOW" []])
               "Update catalog — 1 books" None.

Unset Implicit Arguments.

(** * Properties *)

(** ** [slugify] *)

Ltac each_char c :=
  destruct c as [[] [] [] [] [] [] [] []]; try reflexivity; try discriminate.

Lemma slug_char_lower (c : ascii) : slug_char c = true -> Js.lower_char c = c.
Proof. each_char c. Qed.

Lemma slug_char_keep (c : ascii) : slug_char c = true -> slug_keep c = true.
Proof. each_char c. Qed.

Lemma slug_char_plain (c : ascii) :
  slug_char c = true ->
  Js.in_range 224 229 c = false /\ Js.in_range 232 235 c = false /\
  Js.in_range 236 239 c = false /\ Js.in_range 242 246 c = false /\
  Js.in_range 249 252 c = false /\ Js.in_range 241 241 c = false /\
  Js.is_space c = false.
Proof. each_char c; intros _; repeat split. Qed.

Lemma keep_space_or_slug (c : ascii) :
  slug_keep c = true -> Js.is_space c = false -> slug_char c = true.
Proof. each_char c. Qed.

Lemma replace_each_none (cls : ascii -> bool) (by_ s : list ascii) :
  forallb (fun c => negb (cls c)) s = true -> Js.replace_each cls by_ s = s.
Proof.
  unfold Js.replace_each. induction s as [|c s IH]; simpl; intros H.
  - reflexivity.
  - apply andb_prop in H. destruct H as [Hc Hs].
    destruct (cls c); [discriminate|]. simpl. now rewrite IH.
Qed.

Lemma replace_each_strip (keep : ascii -> bool) (s : list ascii) :
  forallb keep (Js.replace_each (fun c => negb (keep c)) [] s) = true.
Proof.
  unfold Js.replace_each. induction s as [|c s IH]; simpl.
  - reflexivity.
  - destruct (keep c) eqn:E; simpl; [now rewrite E|exact IH].
Qed.

Lemma forallb_rev (p : ascii -> bool) (s : list ascii) :
  forallb p (rev s) = forallb p s.
Proof.
  induction s as [|c s IH]; simpl; [reflexivity|].
  rewrite forallb_app, IH. simpl. rewrite andb_true_r. apply andb_comm.
Qed.

Lemma trimStart_forallb (p : ascii -> bool) (s : list ascii) :
  forallb p s = true -> forallb p (Js.trimStart_chars s) = true.
Proof.
  induction s as [|c s IH]; simpl; intros H; [reflexivity|].
  apply andb_prop in H. destruct H as [Hc Hs].
  destruct (Js.is_space c); [auto|]. simpl. now rewrite Hc, Hs.
Qed.

Lemma trim_forallb (p : ascii -> bool) (s : list ascii) :
  forallb p s = true -> forallb p (Js.trim_chars s) = true.
Proof.
  intros H. unfold Js.trim_chars. rewrite forallb_rev.
  apply trimStart_forallb. rewrite forallb_rev. now apply trimStart_forallb.
Qed.

Lemma trimStart_no_space (s : list ascii) :
  forallb (fun c => negb (Js.is_space c)) s = true -> Js.trimStart_chars s = s.
Proof.
  destruct s as [|c s]; simpl; [reflexivity|]. intros H.
  apply andb_prop in H. destruct H as [Hc _].
  now destruct (Js.is_space c).
Qed.

Lemma trim_no_space (s : list ascii) :
  forallb (fun c => negb (Js.is_space c)) s = true -> Js.trim_chars s = s.
Proof.
  intros H. unfold Js.trim_chars. rewrite (trimStart_no_space s H).
  rewrite trimStart_no_space by now rewrite forallb_rev.
  apply rev_involutive.
Qed.

Lemma replace_runs_none (cls : ascii -> bool) (by_ s : list ascii) (b : bool) :
  forallb (fun c => negb (cls c)) s = true ->
  Js.replace_runs_from cls by_ b s = s.
Proof.
  revert b. induction s as [|c s IH]; simpl; intros b H; [reflexivity|].
  apply andb_prop in H. destruct H as [Hc Hs].
  destruct (cls c); [discriminate|]. now rewrite IH.
Qed.

Lemma replace_spaces_slug (s : list ascii) (b : bool) :
  forallb slug_keep s = true ->
  forallb slug_char (Js.replace_runs_from Js.is_space [hyphen] b s) = true.
Proof.
  revert b. induction s as [|c s IH]; simpl; intros b H; [reflexivity|].
  apply andb_prop in H. destruct H as [Hc Hs].
  destruct (Js.is_space c) eqn:E.
  - rewrite forallb_app, IH by assumption. now destruct b.
  - simpl. now rewrite keep_space_or_slug, IH.
Qed.

Lemma replace_hyphens_slug (s : list ascii) (b : bool) :
  forallb slug_char s = true ->
  forallb slug_char (Js.replace_runs_from is_hyphen [hyphen] b s) = true.
Proof.
  revert b. induction s as [|c s IH]; simpl; intros b H; [reflexivity|].
  apply andb_prop in H. destruct H as [Hc Hs].
  destruct (is_hyphen c) eqn:E.
  - rewrite forallb_app, IH by assumption. now destruct b.
  - simpl. now rewrite Hc, IH.
Qed.

Lemma single_hyphens_cons (c d : ascii) (r : list ascii) :
  single_hyphens (c :: d :: r) =
  negb (is_hyphen c && is_hyphen d) && single_hyphens (d :: r).
Proof. reflexivity. Qed.

(** After a run has started, the rest of the output does not begin with a
    hyphen; in every case the output has single hyphens. *)
Lemma replace_hyphens_single (s : list ascii) (b : bool) :
  single_hyphens (Js.replace_runs_from is_hyphen [hyphen] b s) = true /\
  (b = true ->
   head_is is_hyphen (Js.replace_runs_from is_hyphen [hyphen] b s) = false).
Proof.
  revert b. induction s as [|c s IH]; intros b.
  - simpl. auto.
  - cbn [Js.replace_runs_from]. destruct (is_hyphen c) eqn:E.
    + destruct (IH true) as [Hs Hh]. specialize (Hh eq_refl).
      destruct b; cbn [app].
      * auto.
      * split; [|discriminate].
        destruct (Js.replace_runs_from is_hyphen [hyphen] true s) as [|d r];
          [reflexivity|].
        rewrite single_hyphens_cons. cbn [head_is] in Hh. rewrite Hh, Hs.
        now rewrite andb_false_r.
    + destruct (IH false) as [Hs _]. split.
      * destruct (Js.replace_runs_from is_hyphen [hyphen] false s) as [|d r];
          [reflexivity|].
        rewrite single_hyphens_cons. now rewrite E, Hs.
      * intros _. cbn [head_is]. exact E.
Qed.

Lemma replace_hyphens_fixed (s : list ascii) (b : bool) :
  single_hyphens s = true ->
  (b = true -> head_is is_hyphen s = false) ->
  Js.replace_runs_from is_hyphen [hyphen] b s = s.
Proof.
  revert b. induction s as [|c s IH]; intros b Hs Hb; [reflexivity|].
  cbn [Js.replace_runs_from]. destruct (is_hyphen c) eqn:E.
  - destruct b; [cbn [head_is] in Hb; rewrite Hb in E by reflexivity; discriminate E|].
    cbn [app]. assert (Hc : c = hyphen) by now apply Ascii.eqb_eq.
    rewrite IH; [now rewrite Hc| |].
    + destruct s as [|d r]; [reflexivity|]. rewrite single_hyphens_cons in Hs.
      apply andb_prop in Hs. tauto.
    + intros _. destruct s as [|d r]; [reflexivity|].
      rewrite single_hyphens_cons in Hs. cbn [head_is]. apply andb_prop in Hs. destruct Hs as [Hs _].
      rewrite E in Hs. now destruct (is_hyphen d).
  - rewrite IH; [reflexivity| |discriminate].
    destruct s as [|d r]; [reflexivity|]. rewrite single_hyphens_cons in Hs.
    apply andb_prop in Hs. tauto.
Qed.

Lemma firstn_single_hyphens (n : nat) (s : list ascii) :
  single_hyphens s = true -> single_hyphens (firstn n s) = true.
Proof.
  revert n. induction s as [|c s IH]; intros n H; [now destruct n|].
  destruct n as [|n]; [reflexivity|]. cbn [firstn].
  specialize (IH n). destruct s as [|d r]; [now destruct n|].
  rewrite single_hyphens_cons in H. apply andb_prop in H. destruct H as [H1 H2].
  destruct n as [|n]; [reflexivity|]. cbn [firstn] in *.
  rewrite single_hyphens_cons, H1. now apply IH.
Qed.

Lemma firstn_forallb (p : ascii -> bool) (n : nat) (s : list ascii) :
  forallb p s = true -> forallb p (firstn n s) = true.
Proof.
  revert n. induction s as [|c s IH]; intros n H; [now destruct n|].
  destruct n as [|n]; [reflexivity|]. simpl in *.
  apply andb_prop in H. destruct H as [Hc Hs]. now rewrite Hc, IH.
Qed.

Lemma length_chars (s : string) : List.length (Js.chars s) = String.length s.
Proof.
  unfold Js.chars. induction s as [|c s IH]; simpl; [reflexivity|now rewrite IH].
Qed.

Lemma chars_str (l : list ascii) : Js.chars (Js.str l) = l.
Proof. apply list_ascii_of_string_of_list_ascii. Qed.

Lemma slugify_normal (s : string) : slug_normal (Js.chars (slugify s)).
Proof.
  unfold slugify. rewrite chars_str. unfold Js.slice0, Js.replace_runs.
  repeat split.
  - apply firstn_forallb, replace_hyphens_slug, replace_spaces_slug.
    apply trim_forallb, replace_each_strip.
  - apply firstn_single_hyphens, replace_hyphens_single.
  - apply firstn_le_length.
Qed.

Lemma forallb_impl (p q : ascii -> bool) (l : list ascii) :
  (forall c, p c = true -> q c = true) ->
  forallb p l = true -> forallb q l = true.
Proof.
  intros Hpq. induction l as [|c l IH]; simpl; [reflexivity|].
  intros H. apply andb_prop in H. destruct H as [Hc Hl].
  now rewrite (Hpq c Hc), IH.
Qed.

Lemma map_lower_slug (l : list ascii) :
  forallb slug_char l = true -> map Js.lower_char l = l.
Proof.
  induction l as [|c l IH]; simpl; [reflexivity|]. intros H.
  apply andb_prop in H. destruct H as [Hc Hl].
  now rewrite slug_char_lower, IH.
Qed.

Ltac slug_side Hc :=
  revert Hc; apply forallb_impl;
  let c := fresh "c" in
  let H := fresh "H" in
  intros c H;
  pose proof (slug_char_keep c H);
  destruct (slug_char_plain c H) as (?E & ?E & ?E & ?E & ?E & ?E & ?E);
  now repeat match goal with E : _ = _ |- _ => rewrite E; clear E end.

Lemma slugify_fixed (l : list ascii) :
  slug_normal l -> slugify (Js.str l) = Js.str l.
Proof.
  intros (Hc & Hh & Hlen). unfold slugify, Js.toLowerCase.
  rewrite !chars_str, (map_lower_slug l Hc).
  rewrite !(replace_each_none _ _ l) by slug_side Hc.
  rewrite trim_no_space by slug_side Hc.
  unfold Js.replace_runs.
  rewrite (replace_runs_none Js.is_space) by slug_side Hc.
  rewrite replace_hyphens_fixed by (assumption || discriminate).
  unfold Js.slice0. now rewrite firstn_all2.
Qed.

(** C5: [slugify] is idempotent: applying it to its own output changes
    nothing. *)
Theorem slugify_idempotent (s : string) : slugify (slugify s) = slugify s.
Proof.
  pose proof (slugify_normal s) as H.
  rewrite <- (string_of_list_ascii_of_string (slugify s)).
  now apply slugify_fixed.
Qed.

Lemma replace_each_map (cls : ascii -> bool) (x : ascii) (s : list ascii) :
  Js.replace_each cls [x] s = map (fun c => if cls c then x else c) s.
Proof.
  unfold Js.replace_each. induction s as [|c s IH]; simpl; [reflexivity|].
  rewrite IH. now destruct (cls c).
Qed.

Lemma replace_each_filter (keep : ascii -> bool) (s : list ascii) :
  Js.replace_each (fun c => negb (keep c)) [] s = filter keep s.
Proof.
  unfold Js.replace_each. induction s as [|c s IH]; simpl; [reflexivity|].
  rewrite IH. now destruct (keep c).
Qed.

Lemma unaccent_chain (c : ascii) :
  (fun c => if Js.in_range 241 241 c then "n"%char else c)
    ((fun c => if Js.in_range 249 252 c then "u"%char else c)
       ((fun c => if Js.in_range 242 246 c then "o"%char else c)
          ((fun c => if Js.in_range 236 239 c then "i"%char else c)
             ((fun c => if Js.in_range 232 235 c then "e"%char else c)
                ((fun c => if Js.in_range 224 229 c then "a"%char else c) c)))))
  = unaccent c.
Proof. each_char c. Qed.

Lemma is_hyphen_eq (c : ascii) : is_hyphen c = true -> c = hyphen.
Proof. apply Ascii.eqb_eq. Qed.

Lemma space_not_hyphen (c : ascii) : Js.is_space c = true -> is_hyphen c = false.
Proof. each_char c. Qed.

(** The two replacements of runs, one after the other, squeeze every run of
    separators; inside a run the hyphen has been written already. *)
Lemma replace_runs_squeeze (s : list ascii) :
  Js.replace_runs_from is_hyphen [hyphen] false
    (Js.replace_runs_from Js.is_space [hyphen] false s) = squeeze s /\
  Js.replace_runs_from is_hyphen [hyphen] true
    (Js.replace_runs_from Js.is_space [hyphen] false s) =
    strip_hyphen (squeeze s) /\
  Js.replace_runs_from is_hyphen [hyphen] true
    (Js.replace_runs_from Js.is_space [hyphen] true s) =
    strip_hyphen (squeeze s).
Proof.
  induction s as [|c s (IHa & IHb & IHc)]; [repeat split|].
  cbn [Js.replace_runs_from squeeze]. unfold separator.
  destruct (Js.is_space c) eqn:Es.
  - cbn [app orb Js.replace_runs_from].
    assert (Hh : is_hyphen hyphen = true) by reflexivity. rewrite Hh.
    cbn [app]. rewrite IHc.
    destruct (squeeze s) as [|d out]; [repeat split|].
    cbn [strip_hyphen]. destruct (is_hyphen d) eqn:Ed.
    + rewrite (is_hyphen_eq d Ed). cbn [strip_hyphen]. rewrite Hh. repeat split.
    + cbn [strip_hyphen]. rewrite Hh. repeat split.
  - cbn [orb Js.replace_runs_from]. destruct (is_hyphen c) eqn:Eh.
    + cbn [app]. rewrite IHb.
      destruct (squeeze s) as [|d out]; [repeat split|].
      cbn [strip_hyphen]. destruct (is_hyphen d) eqn:Ed.
      * rewrite (is_hyphen_eq d Ed). cbn [strip_hyphen].
        assert (Hh : is_hyphen hyphen = true) by reflexivity. rewrite Hh.
        repeat split.
      * cbn [strip_hyphen].
        assert (Hh : is_hyphen hyphen = true) by reflexivity. rewrite Hh.
        repeat split.
    + rewrite IHa. cbn [strip_hyphen]. rewrite Eh. repeat split.
Qed.

Lemma slugify_as_described (s : string) : slugify s = slugify_described s.
Proof.
  unfold slugify, slugify_described, Js.toLowerCase, Js.replace_runs, Js.slice0.
  rewrite chars_str, !replace_each_map, replace_each_filter, !map_map.
  rewrite (proj1 (replace_runs_squeeze _)).
  do 5 f_equal. apply map_ext. intros c. apply unaccent_chain.
Qed.

(** C6, as the code has it: [slugify] lower-cases, maps the accented
    letters to their base letter, strips what is outside [[a-z0-9\s-]],
    trims white space (not hyphens) at both ends, turns every run of white
    space and hyphens into one hyphen and keeps the first 60 characters;
    its output has at most 60 characters, all of them in [[a-z0-9-]], and
    no two hyphens in a row. *)
Theorem slugify_output (s : string) :
  slugify s = slugify_described s /\
  (String.length (slugify s) <= 60)%nat /\
  forallb slug_char (Js.chars (slugify s)) = true /\
  single_hyphens (Js.chars (slugify s)) = true.
Proof.
  split; [apply slugify_as_described|].
  destruct (slugify_normal s) as (Hc & Hh & Hlen).
  rewrite length_chars in Hlen. auto.
Qed.

(** C6 as stated fails: [trim] removes white space only, so hyphens at
    either end of the input stay. *)
Lemma slugify_outer_hyphens :
  slugify "-- Faust --" = "-faust-" /\
  begins_with_hyphen (slugify "-- Faust --") = true /\
  ends_with_hyphen (slugify "-- Faust --") = true.
Proof. repeat split. Qed.

(** ** The catalog protocol *)

Section Protocol.

Context `{remote : Remote} `{config : Config} `{node : NodePath}.

Lemma append_inv_head (p x y : string) : p ++ x = p ++ y -> x = y.
Proof.
  induction p as [|c p IH]; simpl; intros H; [exact H|].
  injection H as H. auto.
Qed.

Lemma append_assoc3 (a b c : string) : (a ++ b) ++ c = a ++ (b ++ c).
Proof. induction a as [|x a IH]; simpl; [reflexivity|now rewrite IH]. Qed.

(** Every address of the Contents API is a fixed prefix followed by the
    path of the file. *)
Lemma contents_url_prefix (p : string) : contents_url p = contents_url "" ++ p.
Proof.
  unfold contents_url. rewrite !append_assoc3. reflexivity.
Qed.

Lemma contents_url_inj (p q : string) : contents_url p = contents_url q -> p = q.
Proof.
  rewrite (contents_url_prefix p), (contents_url_prefix q).
  apply append_inv_head.
Qed.

(** A blob lives under [books/], the catalog is [books.json]: no blob
    request addresses the catalog. *)
Lemma blob_is_not_catalog (title author ext : string) :
  contents_url (filePath_of title author ext) <> contents_url "books.json".
Proof.
  intros H. apply contents_url_inj in H.
  unfold filePath_of in H. cbn [append] in H. discriminate H.
Qed.

Lemma blob_get_is_not_catalog_get (title author ext : string) :
  get_request (filePath_of title author ext) <> get_request "books.json".
Proof.
  unfold get_request. intros H.
  apply (f_equal Request.url) in H. cbn [Request.url] in H.
  rewrite (contents_url_prefix (filePath_of _ _ _)) in H.
  rewrite (contents_url_prefix "books.json") in H.
  rewrite !append_assoc3 in H. apply append_inv_head in H.
  unfold filePath_of in H. cbn [append] in H. discriminate H.
Qed.

Lemma blank_truthy (v : option string) : blank v = true -> Js.truthy v = None.
Proof. destruct v as [[|c v]|]; simpl; congruence. Qed.

Lemma truthy_none_blank (v : option string) :
  Js.truthy v = None -> blank v = true.
Proof. destruct v as [[|c v]|]; simpl; congruence. Qed.

(** C3, as the code has it: an upload whose file is absent, or whose title,
    author or genre is absent or empty, is answered 400 with the message of
    the first such field, and nothing is sent to the host: the store, the
    trace and the console are as before. *)
Theorem upload_missing_field (req : Upload.t) (now : string) (s : Store) :
  Upload.file req = None \/ blank (Upload.title req) = true \/
  blank (Upload.author req) = true \/ blank (Upload.genre req) = true ->
  exists fld,
    missing_field req = Some fld /\
    run (upload req now) s =
      (Return (ErrorReply 400 (field_error fld)), World.mk s [] []).
Proof.
  intros H. unfold missing_field, run, upload, try_catch, ret.
  destruct (Upload.file req) as [f|]; [|now exists FileField].
  destruct (blank (Upload.title req)) eqn:Et.
  { exists TitleField. now rewrite (blank_truthy _ Et). }
  destruct (Js.truthy (Upload.title req)) as [title|] eqn:Tt;
    [|now rewrite (truthy_none_blank _ Tt) in Et].
  destruct (blank (Upload.author req)) eqn:Ea.
  { exists AuthorField. now rewrite (blank_truthy _ Ea). }
  destruct (Js.truthy (Upload.author req)) as [author|] eqn:Ta;
    [|now rewrite (truthy_none_blank _ Ta) in Ea].
  destruct (blank (Upload.genre req)) eqn:Eg.
  { exists GenreField. now rewrite (blank_truthy _ Eg). }
  destruct H as [H|[H|[H|H]]]; discriminate H.
Qed.



(** *** Case analysis of a run

    [run_cases] unfolds a handler and follows it through every answer of the
    host, leaving one goal per path with the trace written out. *)

Ltac unfold_run :=
  cbv [run handle listBooks upload upload_valid deleteBook try_catch bind ret
       throw lift fetch console_log console_error getFileSHA
       commitFileToGitHub getBooksJson saveBooksJson
       World.store World.trace World.console fst snd negb];
  cbn [app].

Ltac run_step :=
  match goal with
  | |- context [match Upload.file ?req with _ => _ end] =>
      let E := fresh "Hfile" in
      destruct (Upload.file req) as [?f|] eqn:E
  | |- context [Js.truthy (?field ?req)] =>
      let E := fresh "Hfield" in
      destruct (Js.truthy (field req)) as [?text|] eqn:E
  | |- context [match Delete.authorization ?req with _ => _ end] =>
      let E := fresh "Hauth" in
      destruct (Delete.authorization req) as [?header|] eqn:E
  | |- context [String.eqb ?a ?b] =>
      destruct (String.eqb_spec a b)
  | |- context [serve ?s ?rq] =>
      let E := fresh "Hserve" in
      destruct (serve s rq) as [? [?message|?res]] eqn:E
  | |- context [decode_sha ?res] =>
      let E := fresh "Hsha" in
      destruct (decode_sha res) as [?sha|?message] eqn:E
  | |- context [decode_commit ?res] =>
      let E := fresh "Hcommit" in
      destruct (decode_commit res) as [?data|?message] eqn:E
  | |- context [decode_books ?res] =>
      let E := fresh "Hbooks" in
      destruct (decode_books res) as [[?books ?sha]|?message] eqn:E
  | |- context [findIndex ?p ?l] =>
      let E := fresh "Hindex" in
      destruct (findIndex p l) as [?idx|] eqn:E
  | |- context [nth_error ?l ?i] =>
      let E := fresh "Hnth" in
      destruct (nth_error l i) as [?removed|] eqn:E
  end.

Ltac run_cases := unfold_run; repeat (run_step; unfold_run).

(** One goal per event of a trace that is written out. *)
Ltac each_event H :=
  cbn [In] in H;
  repeat match type of H with
         | _ \/ _ => destruct H as [H|H]
         | False => destruct H
         end.

Lemma not_catalog_write_get (p : string) : ~ is_catalog_write (get_request p).
Proof. intros [H _]. discriminate H. Qed.

Lemma not_catalog_write_blob (title author ext : string) (content : Payload)
      (message : string) (sha : option string) :
  ~ is_catalog_write
      (put_request (filePath_of title author ext) content message sha).
Proof. intros [_ H]. apply blob_is_not_catalog in H. destruct H. Qed.

(** Closes a goal whose hypothesis [Hw] says that a GET, or a PUT of a
    blob, writes the catalog. *)
Ltac not_a_write Hw :=
  lazymatch type of Hw with
  | is_catalog_write (get_request _) =>
      apply not_catalog_write_get in Hw; destruct Hw
  | is_catalog_write (put_request (filePath_of _ _ _) _ _ _) =>
      apply not_catalog_write_blob in Hw; destruct Hw
  end.

(** The catalog write of an upload: it is the last call of the run, it
    follows the fetch of the catalog, and it carries the fetched entries
    followed by [newBook], with the token [getBooksJson] returned. *)
Lemma upload_catalog_write (req : Upload.t) (now : string) (s : Store)
      (rq : Request.t) (r : FetchResult) :
  In (rq, r) (World.trace (snd (run (upload req now) s))) ->
  is_catalog_write rq ->
  exists f title author genre pre res books sha,
    Upload.file req = Some f /\
    Js.truthy (Upload.title req) = Some title /\
    Js.truthy (Upload.author req) = Some author /\
    Js.truthy (Upload.genre req) = Some genre /\
    World.trace (snd (run (upload req now) s)) =
      (pre ++ [(get_request "books.json", Resolved res); (rq, r)])%list /\
    decode_books res = Return (books, sha) /\
    Request.body rq =
      Some (Body.mk
              ("Update catalog — "
                 ++ Js.showZ (Z.of_nat (List.length
                      (books ++ [newBook f title author genre req now books])))
                 ++ " books")
              (CatalogJson (books ++ [newBook f title author genre req now books]))
              GITHUB_BRANCH (Js.truthy sha)).
Proof.
  run_cases; intros Hin Hw; each_event Hin;
    injection Hin as <- <-;
    try not_a_write Hw;
    (eexists _, _, _, _, [_; _], _, _, _;
     repeat (split; [eassumption || reflexivity|]); reflexivity).
Qed.

(** The catalog write of a delete, likewise. *)
Lemma delete_catalog_write (req : Delete.t) (s : Store)
      (rq : Request.t) (r : FetchResult) :
  In (rq, r) (World.trace (snd (run (deleteBook req) s))) ->
  is_catalog_write rq ->
  exists res books sha idx,
    World.trace (snd (run (deleteBook req) s)) =
      [(get_request "books.json", Resolved res); (rq, r)] /\
    decode_books res = Return (books, sha) /\
    findIndex (same_id (parseInt (Delete.id req))) books = Some idx /\
    Request.body rq =
      Some (Body.mk
              ("Update catalog — "
                 ++ Js.showZ (Z.of_nat (List.length (splice1 idx books)))
                 ++ " books")
              (CatalogJson (splice1 idx books))
              GITHUB_BRANCH (Js.truthy sha)).
Proof.
  run_cases; intros Hin Hw; each_event Hin;
    injection Hin as <- <-;
    try not_a_write Hw;
    (eexists _, _, _, _;
     repeat (split; [eassumption || reflexivity|]); reflexivity).
Qed.

Lemma list_never_writes (s : Store) (rq : Request.t) (r : FetchResult) :
  In (rq, r) (World.trace (snd (run listBooks s))) -> ~ is_catalog_write rq.
Proof.
  run_cases; intros Hin Hw; each_event Hin; injection Hin as <- <-;
    not_a_write Hw.
Qed.

Lemma truthy_token (sha : option string) (token : string) :
  sha = Some token -> token <> "" -> Js.truthy sha = Some token.
Proof. intros -> H. destruct token; [now elim H|reflexivity]. Qed.

Lemma truthy_no_token (sha : option string) :
  Js.truthy sha = None -> sha = None \/ sha = Some "".
Proof. destruct sha as [[|c t]|]; simpl; intros H; auto; discriminate H. Qed.

Lemma decode_books_absent (res : Response.t) (books : list Book.t)
      (sha : option string) :
  decode_books res = Return (books, sha) -> Response.status res = 404 ->
  books = [] /\ sha = None.
Proof.
  unfold decode_books. intros H E. rewrite E in H. cbn in H.
  injection H as <- <-. auto.
Qed.

Lemma fetched_token (res : Response.t) (books : list Book.t)
      (sha : option string) :
  names_revision (get_request "books.json", Resolved res) = true ->
  decode_books res = Return (books, sha) ->
  Js.truthy sha = sha /\ (sha = None <-> Response.status res = 404).
Proof.
  unfold names_revision, decode_books.
  cbn [fst snd get_request Request.method].
  destruct (Z.eqb_spec (Response.status res) 404) as [E|E].
  - intros _ H. injection H as <- <-. now split.
  - destruct (ok res); cbn [negb]; [|discriminate].
    destruct (Response.json res) as [message|data]; [discriminate|].
    destruct (Data.sha data) as [[|c token]|]; try discriminate.
    intros _ H.
    assert (Hsha : sha = Some (String c token))
      by (destruct (Data.content data); now inversion H).
    rewrite Hsha. split; [reflexivity|]. split; [discriminate|].
    intros E'. now elim E.
Qed.

(** C1: every write of the catalog document, by an upload or a delete,
    comes straight after the fetch of the catalog by the same request and
    presents exactly the revision token that fetch returned; it presents no
    token only when the fetch reported the catalog absent, and always then.
    The host honours its contract: whenever it answers a GET with 2xx and a
    JSON object, the [sha] of that object is a non-empty string. *)
Theorem catalog_write_presents_fetched_token (op : Operation) (s : Store)
        (rq : Request.t) (r : FetchResult) :
  In (rq, r) (World.trace (snd (run (handle op) s))) ->
  is_catalog_write rq ->
  forallb names_revision (World.trace (snd (run (handle op) s))) = true ->
  exists pre res books sha,
    World.trace (snd (run (handle op) s)) =
      (pre ++ [(get_request "books.json", Resolved res); (rq, r)])%list /\
    decode_books res = Return (books, sha) /\
    presented_token rq = sha /\
    (presented_token rq = None <-> Response.status res = 404).
Proof.
  intros Hin Hw Hc.
  assert (exists pre res books sha,
             World.trace (snd (run (handle op) s)) =
               (pre ++ [(get_request "books.json", Resolved res); (rq, r)])%list /\
             decode_books res = Return (books, sha) /\
             presented_token rq = Js.truthy sha) as (pre & res & books & sha & Ht & Hd & Hp).
  { destruct op as [|req now|req]; cbn [handle] in *.
    - now elim (list_never_writes _ _ _ Hin).
    - destruct (upload_catalog_write _ _ _ _ _ Hin Hw)
        as (f & title & author & genre & pre & res & books & sha & _ & _ & _ & _
            & Ht & Hd & Hb).
      exists pre, res, books, sha. unfold presented_token. now rewrite Hb.
    - destruct (delete_catalog_write _ _ _ _ Hin Hw)
        as (res & books & sha & idx & Ht & Hd & _ & Hb).
      exists [], res, books, sha. unfold presented_token. now rewrite Hb. }
  exists pre, res, books, sha. split; [exact Ht|]. split; [exact Hd|].
  assert (Hn : names_revision (get_request "books.json", Resolved res) = true).
  { rewrite forallb_forall in Hc. apply Hc. rewrite Ht.
    apply in_or_app. right. now left. }
  destruct (fetched_token res books sha Hn Hd) as [Htruthy Habsent].
  rewrite Hp, Htruthy. split; [reflexivity|exact Habsent].
Qed.

(** *** Id allocation *)

Lemma Math_max_spec (xs : list Z) (x : Z) :
  (Math_max x xs = x \/ In (Math_max x xs) xs) /\
  x <= Math_max x xs /\ (forall y, In y xs -> y <= Math_max x xs).
Proof.
  unfold Math_max. revert x. induction xs as [|y xs IH]; intros x; cbn [fold_left].
  - repeat split; [now left|lia|intros y []].
  - destruct (IH (Z.max x y)) as (Hin & Hle & Hall). repeat split.
    + destruct Hin as [E|Hin]; [|right; now right].
      rewrite E. destruct (Z.max_spec x y) as [[_ ->]|[_ ->]];
        [right; now left|now left].
    + lia.
    + intros z [<-|Hz]; [lia|now apply Hall].
Qed.

Lemma id_or_0_id (b : Book.t) (n : Z) : Book.id b = Some n -> id_or_0 b = n.
Proof. unfold id_or_0. intros ->. now destruct n. Qed.

Lemma round_exact (z : Z) : Z.abs z <= 9007199254740992 -> Js.round z = z.
Proof.
  intros H. unfold Js.round.
  destruct (Z.ltb_spec (Z.abs z) 9007199254740992) as [_|Hge]; [reflexivity|].
  assert (z = 9007199254740992 \/ z = - 9007199254740992) as [->| ->] by lia;
    reflexivity.
Qed.

Lemma id_or_0_safe (b : Book.t) :
  (forall k, Book.id b = Some k -> safe_integer k) -> safe_integer (id_or_0 b).
Proof.
  intros H. unfold id_or_0. destruct (Book.id b) as [k|]; [|unfold safe_integer; lia].
  specialize (H k eq_refl). now destruct k.
Qed.

(** With safe ids the sum is exact. *)
Lemma nextId_exact (b0 : Book.t) (bs : list Book.t) :
  (forall b k, In b (b0 :: bs) -> Book.id b = Some k -> safe_integer k) ->
  nextId (b0 :: bs) = Math_max (id_or_0 b0) (map id_or_0 bs) + 1.
Proof.
  intros Hsafe. unfold nextId. cbn [map]. apply round_exact.
  destruct (Math_max_spec (map id_or_0 bs) (id_or_0 b0)) as (Hin & _ & _).
  assert (exists b, In b (b0 :: bs) /\
                    Math_max (id_or_0 b0) (map id_or_0 bs) = id_or_0 b)
    as (b & Hb & ->).
  { destruct Hin as [E|Hin]; [exists b0; split; [now left|exact E]|].
    apply in_map_iff in Hin. destruct Hin as (b & E & Hb).
    exists b. split; [now right|now symmetry]. }
  assert (Hk : safe_integer (id_or_0 b))
    by (apply id_or_0_safe; intros k; now apply Hsafe).
  unfold safe_integer in Hk. lia.
Qed.

Lemma nextId_spec (books : list Book.t) :
  (forall b, In b books ->
             exists n, Book.id b = Some n /\ 0 < n < 9007199254740992) ->
  (books = [] -> nextId books = 1) /\
  (books <> [] ->
   (exists b, In b books /\ Book.id b = Some (nextId books - 1)) /\
   (forall b k, In b books -> Book.id b = Some k -> k <= nextId books - 1)).
Proof.
  intros Hpos. split; [now intros ->|]. intros Hne.
  destruct books as [|b0 bs]; [now elim Hne|]. rewrite nextId_exact.
  2:{ intros b k Hb Hk. destruct (Hpos b Hb) as (n & Hn & Hr).
      rewrite Hn in Hk. injection Hk as <-. unfold safe_integer. lia. }
  destruct (Math_max_spec (map id_or_0 bs) (id_or_0 b0)) as (Hin & Hle & Hall).
  replace (Math_max (id_or_0 b0) (map id_or_0 bs) + 1 - 1)
    with (Math_max (id_or_0 b0) (map id_or_0 bs)) by lia.
  split.
  - assert (exists b, In b (b0 :: bs) /\
                      id_or_0 b = Math_max (id_or_0 b0) (map id_or_0 bs))
      as (b & Hb & E).
    { destruct Hin as [E|Hin].
      - exists b0. split; [now left|now symmetry].
      - apply in_map_iff in Hin. destruct Hin as (b & E & Hb).
        exists b. split; [now right|exact E]. }
    exists b. split; [exact Hb|].
    destruct (Hpos b Hb) as (n & Hn & _). rewrite <- E, (id_or_0_id b n Hn).
    exact Hn.
  - intros b k [<-|Hb] Hk.
    + now rewrite <- (id_or_0_id _ _ Hk).
    + rewrite <- (id_or_0_id _ _ Hk). apply Hall. now apply in_map.
Qed.

(** C2, amended: the entry an upload appends to the fetched catalog has,
    when every fetched entry carries a positive integer id below 2^53, the
    id 1 if the catalog is empty and the greatest existing id plus one
    otherwise; hence an id greater than every existing one. *)
Theorem upload_allocates_next_id (req : Upload.t) (now : string) (s : Store)
        (rq : Request.t) (r : FetchResult) :
  In (rq, r) (World.trace (snd (run (upload req now) s))) ->
  is_catalog_write rq ->
  exists pre res books sha book,
    World.trace (snd (run (upload req now) s)) =
      (pre ++ [(get_request "books.json", Resolved res); (rq, r)])%list /\
    decode_books res = Return (books, sha) /\
    written_catalog rq = Some (books ++ [book])%list /\
    ((forall b, In b books ->
                exists n, Book.id b = Some n /\ 0 < n < 9007199254740992) ->
     exists n,
       Book.id book = Some n /\
       (books = [] -> n = 1) /\
       (books <> [] ->
        (exists b, In b books /\ Book.id b = Some (n - 1)) /\
        (forall b k, In b books -> Book.id b = Some k -> k <= n - 1)) /\
       (forall b k, In b books -> Book.id b = Some k -> k < n)).
Proof.
  intros Hin Hw.
  destruct (upload_catalog_write _ _ _ _ _ Hin Hw)
    as (f & title & author & genre & pre & res & books & sha & _ & _ & _ & _
        & Ht & Hd & Hb).
  exists pre, res, books, sha, (newBook f title author genre req now books).
  split; [exact Ht|]. split; [exact Hd|]. split.
  - unfold written_catalog. now rewrite Hb.
  - intros Hpos. exists (nextId books).
    destruct (nextId_spec books Hpos) as (Hempty & Hmax).
    split; [reflexivity|]. split; [exact Hempty|]. split; [exact Hmax|].
    intros b k Hb' Hk.
    assert (Hne : books <> []) by (intros ->; destruct Hb').
    destruct (Hmax Hne) as (_ & Hall). specialize (Hall b k Hb' Hk). lia.
Qed.

(** *** The entry an upload stores *)

(** The handler adds a [try]/[catch] around [upload_valid], which only
    logs: the calls are those of [upload_valid]. *)
Lemma upload_trace_valid (req : Upload.t) (now : string) (s : Store)
      (f : File.t) (title author genre : string) :
  Upload.file req = Some f ->
  Js.truthy (Upload.title req) = Some title ->
  Js.truthy (Upload.author req) = Some author ->
  Js.truthy (Upload.genre req) = Some genre ->
  World.trace (snd (run (upload req now) s)) =
  World.trace (snd (run (upload_valid f title author genre req now) s)).
Proof.
  intros Hf Ht Ha Hg. cbv [run upload try_catch]. rewrite Hf, Ht, Ha, Hg.
  now destruct (upload_valid f title author genre req now (World.mk s [] []))
    as [[reply|message] w].
Qed.

Lemma upload_valid_first (f : File.t) (title author genre : string)
      (req : Upload.t) (now : string) (s : Store) :
  exists r rest,
    World.trace (snd (run (upload_valid f title author genre req now) s)) =
      (get_request (filePath_of title author (ext_of f)), r) :: rest.
Proof. run_cases; eexists _, _; reflexivity. Qed.

Lemma upload_valid_writes (f : File.t) (title author genre : string)
      (req : Upload.t) (now : string) (s : Store) (rq : Request.t)
      (r : FetchResult) :
  In (rq, r)
     (World.trace (snd (run (upload_valid f title author genre req now) s))) ->
  Request.method rq = PUT ->
  (Request.url rq = contents_url (filePath_of title author (ext_of f)) /\
   exists b, Request.body rq = Some b /\
             Body.content b = FileBytes (File.buffer f)) \/
  (is_catalog_write rq /\
   exists books,
     written_catalog rq =
       Some (books ++ [newBook f title author genre req now books])%list).
Proof.
  run_cases; intros Hin Hput; each_event Hin; injection Hin as <- <-;
    try discriminate Hput;
    try (left; split; [reflexivity|eexists; split; reflexivity]);
    (right; split; [split; reflexivity|eexists; reflexivity]).
Qed.

(** *** Genre colours *)

Lemma existsb_not_in (genre : string) (keys : list string) :
  ~ In genre keys -> existsb (String.eqb genre) keys = false.
Proof.
  induction keys as [|k keys IH]; intros H; [reflexivity|]. cbn [existsb].
  destruct (String.eqb_spec genre k) as [->|_]; [elim H; now left|].
  apply IH. intros Hin. apply H. now right.
Qed.

(** C8, as the code has it: the entry an upload stores has the trimmed
    genre as [genre]; when the submitted genre carries no surrounding
    white space, its [color] is the entry of the table for that genre if
    there is one, and the default "#4a4a4a" if the genre is neither in the
    table nor a key inherited from [Object.prototype]. *)
Theorem upload_genre_color (req : Upload.t) (now : string) (s : Store)
        (rq : Request.t) (r : FetchResult) :
  In (rq, r) (World.trace (snd (run (upload req now) s))) ->
  is_catalog_write rq ->
  exists genre books book,
    Js.truthy (Upload.genre req) = Some genre /\
    written_catalog rq = Some (books ++ [book])%list /\
    Book.genre book = Js.trim genre /\
    (Js.trim genre = genre ->
     (forall c, own_property (Book.genre book) genreColors = Some c ->
                Book.color book = Hex c) /\
     (own_property (Book.genre book) genreColors = None ->
      ~ In (Book.genre book) Object_prototype_keys ->
      Book.color book = Hex "#4a4a4a")).
Proof.
  intros Hin Hw.
  destruct (upload_catalog_write _ _ _ _ _ Hin Hw)
    as (f & title & author & genre & pre & res & books & sha & _ & _ & _ & Hg
        & _ & _ & Hb).
  exists genre, books, (newBook f title author genre req now books).
  split; [exact Hg|]. split; [unfold written_catalog; now rewrite Hb|].
  split; [reflexivity|]. cbn [newBook Book.genre Book.color].
  intros ->. unfold color_of, genreColors_get. split.
  - intros c ->. reflexivity.
  - intros -> Hkeys. now rewrite (existsb_not_in _ _ Hkeys).
Qed.

(** *** Failures of the host *)

Lemma failure_rejected (rq : Request.t) (message : string) :
  failure (rq, Rejected message) = Some message.
Proof. reflexivity. Qed.

Lemma failure_put (p : string) (content : Payload) (message : string)
      (sha : option string) (res : Response.t) :
  failure (put_request p content message sha, Resolved res) =
  thrown (decode_commit res).
Proof. reflexivity. Qed.

Lemma failure_catalog_get (res : Response.t) :
  failure (get_request "books.json", Resolved res) = thrown (decode_books res).
Proof. unfold failure. cbn [fst snd Request.method get_request]. now rewrite String.eqb_refl. Qed.

Lemma failure_blob_get (title author ext : string) (res : Response.t) :
  failure (get_request (filePath_of title author ext), Resolved res) =
  thrown (decode_sha res).
Proof.
  unfold failure. cbn [fst snd Request.method get_request Request.url].
  destruct (String.eqb_spec
              (contents_url (filePath_of title author ext) ++ "?ref="
                 ++ GITHUB_BRANCH)
              (contents_url "books.json" ++ "?ref=" ++ GITHUB_BRANCH))
    as [E|_]; [|reflexivity].
  elim (blob_get_is_not_catalog_get title author ext).
  unfold get_request. now rewrite E.
Qed.

Ltac failure_of Hf :=
  lazymatch type of Hf with
  | failure (_, Rejected _) = _ => rewrite failure_rejected in Hf
  | failure (get_request (filePath_of _ _ _), Resolved _) = _ =>
      rewrite failure_blob_get in Hf
  | failure (get_request _, Resolved _) = _ =>
      rewrite failure_catalog_get in Hf
  | failure (put_request _ _ _ _, Resolved _) = _ => rewrite failure_put in Hf
  end.

(** Rewrites with the outcome recorded for a decoder. *)
Ltac decoded Hf :=
  repeat match goal with
         | E : decode_sha ?res = _ |- _ =>
             lazymatch type of Hf with context [decode_sha res] =>
               rewrite E in Hf end
         | E : decode_commit ?res = _ |- _ =>
             lazymatch type of Hf with context [decode_commit res] =>
               rewrite E in Hf end
         | E : decode_books ?res = _ |- _ =>
             lazymatch type of Hf with context [decode_books res] =>
               rewrite E in Hf end
         end.

(** A call that fails ends the request: the handler catches the error,
    logs its message and answers 500 with the text [client_text] gives. *)
Lemma failure_is_caught (op : Operation) (s : Store)
      (e : Request.t * FetchResult) (message : string) :
  In e (World.trace (snd (run (handle op) s))) ->
  failure e = Some message ->
  fst (run (handle op) s) = Return (ErrorReply 500 (client_text op message)) /\
  In (logged op message) (World.console (snd (run (handle op) s))).
Proof.
  destruct op as [|req now|req]; run_cases; intros Hin Hf; each_event Hin;
    subst e; failure_of Hf; decoded Hf; cbn [thrown] in Hf;
    try discriminate Hf; injection Hf as ->;
    (split; [reflexivity|cbn [logged In]; auto]).
Qed.

(** C9, as the code has it: when a call to the host fails while an upload
    or a delete is handled, the client is answered 500 with
    [{ success: false, error }], where [error] is the message of the caught
    error itself (for an upload, the generic text only when that message is
    empty); the same message is logged on the console.  For a rejected
    commit or blob lookup that message holds the status and the body the
    host answered. *)
Theorem remote_failure_reply (op : Operation) (s : Store)
        (e : Request.t * FetchResult) (message : string) :
  In e (World.trace (snd (run (handle op) s))) ->
  failure e = Some message ->
  (fst (run (handle op) s) = Return (ErrorReply 500 (client_text op message)) /\
   In (logged op message) (World.console (snd (run (handle op) s)))) /\
  (forall req now, op = UploadBook req now -> message <> "" ->
                   client_text op message = message) /\
  (forall req, op = DeleteBook req -> client_text op message = message) /\
  (forall res, ok res = false ->
     decode_commit res =
       Throw ("GitHub commit failed (" ++ Js.showZ (Response.status res)
                ++ "): " ++ Response.text res)) /\
  (forall res, ok res = false -> Response.status res <> 404 ->
     decode_sha res =
       Throw ("GitHub SHA error: " ++ Js.showZ (Response.status res) ++ " "
                ++ Response.text res)).
Proof.
  intros Hin Hf. split; [exact (failure_is_caught op s e message Hin Hf)|].
  split; [|split; [|split]].
  - intros req now -> Hne. cbn [client_text]. destruct message; [now elim Hne|reflexivity].
  - now intros req ->.
  - intros res E. unfold decode_commit. now rewrite E.
  - intros res E Hs. unfold decode_sha.
    apply Z.eqb_neq in Hs. now rewrite Hs, E.
Qed.

Lemma ok_not_404 (res : Response.t) :
  ok res = true -> (Response.status res =? 404) = false.
Proof.
  unfold ok. intros H. apply andb_prop in H. destruct H as [_ H].
  apply Z.leb_le in H. apply Z.eqb_neq. lia.
Qed.

Lemma unparsable_throws (res : Response.t) :
  ok res = true -> unparsable res ->
  exists message, decode_books res = Throw message.
Proof.
  intros Hok Hu. unfold decode_books, unparsable in *.
  rewrite (ok_not_404 res Hok), Hok. cbn [negb].
  destruct (Response.json res) as [message|data]; [now exists message|].
  destruct (Data.content data) as [message| |books];
    [now exists message|destruct Hu|destruct Hu].
Qed.

(** C10, as the code has it: when the catalog document is there (the host
    answers 2xx) but its body or its content does not parse as JSON, the
    operation (list, upload or delete) is answered 500; a content that
    parses to a JSON value other than an array is read as an empty catalog
    with the revision of the document. *)
Theorem unparsable_catalog_fails (op : Operation) (s : Store)
        (res : Response.t) :
  In (get_request "books.json", Resolved res)
     (World.trace (snd (run (handle op) s))) ->
  ok res = true ->
  unparsable res ->
  (exists error, fst (run (handle op) s) = Return (ErrorReply 500 error)) /\
  (forall res' sha,
     ok res' = true ->
     Response.json res' = JsonObject (Data.mk sha NotArray) ->
     decode_books res' = Return ([], sha)).
Proof.
  intros Hin Hok Hu. split.
  - destruct (unparsable_throws res Hok Hu) as [message Hd].
    exists (client_text op message).
    apply (failure_is_caught op s _ message Hin).
    now rewrite failure_catalog_get, Hd.
  - intros res' sha Hok' Hj. unfold decode_books.
    now rewrite (ok_not_404 res' Hok'), Hok', Hj.
Qed.

(** ** Further properties of the handlers *)

(** *** What a success tells *)

Lemma upload_success (req : Upload.t) (now : string) (s : Store)
      (message : string) (book : Book.t) (total : nat) :
  fst (run (upload req now) s) = Return (UploadReply message book total) ->
  exists f title author genre res1 sha1 res2 data2 res3 books sha res4 data4,
    Upload.file req = Some f /\
    Js.truthy (Upload.title req) = Some title /\
    Js.truthy (Upload.author req) = Some author /\
    Js.truthy (Upload.genre req) = Some genre /\
    World.trace (snd (run (upload req now) s)) =
      [(get_request (filePath_of title author (ext_of f)), Resolved res1);
       (put_request (filePath_of title author (ext_of f))
          (FileBytes (File.buffer f)) ("Add: " ++ title ++ " by " ++ author)
          sha1, Resolved res2);
       (get_request "books.json", Resolved res3);
       (put_request "books.json" (CatalogJson (books ++ [book]))
          ("Update catalog — "
             ++ Js.showZ (Z.of_nat (List.length (books ++ [book])))
             ++ " books") sha, Resolved res4)] /\
    decode_sha res1 = Return sha1 /\
    decode_commit res2 = Return data2 /\
    decode_books res3 = Return (books, sha) /\
    decode_commit res4 = Return data4 /\
    book = newBook f title author genre req now books /\
    total = List.length (books ++ [book]).
Proof.
  run_cases; intros H; try discriminate H; injection H as <- <- <-;
    eexists _, _, _, _, _, _, _, _, _, _, _, _, _;
    repeat (split; [eassumption || reflexivity|]); reflexivity.
Qed.

(** *** The path of the blob *)

(** Once the lookup is answered and [getFileSHA] returns, the next call is
    the write of the blob, at the same path. *)
Lemma upload_valid_blob_write (f : File.t) (title author genre : string)
      (req : Upload.t) (now : string) (s s1 : Store) (res : Response.t)
      (sha : option string) :
  serve s (get_request (filePath_of title author (ext_of f))) =
    (s1, Resolved res) ->
  decode_sha res = Return sha ->
  exists r rest,
    World.trace (snd (run (upload_valid f title author genre req now) s)) =
      (get_request (filePath_of title author (ext_of f)), Resolved res)
        :: (put_request (filePath_of title author (ext_of f))
              (FileBytes (File.buffer f))
              ("Add: " ++ title ++ " by " ++ author) sha, r)
        :: rest.
Proof.
  intros Hs Hd. unfold_run. rewrite Hs. unfold_run. rewrite Hd.
  run_cases; eexists _, _; reflexivity.
Qed.

(** C7: a valid upload looks its blob up at [books/] + [slugify(title)] +
    [-] + [slugify(author)] + the lower-cased extension of the original
    file name; once the lookup returns, its next call writes the bytes of
    the file at that path; it writes nothing but that blob and the catalog;
    and when it answers success, the entry of the answer has that path as
    [file] and EPUB or PDF as [format], and is the last entry of the catalog
    that the last call wrote and the host accepted.  For "Moby Dick" by
    "Herman Melville" and a [.pdf] file the path is
    [books/moby-dick-herman-melville.pdf] and the stored entry has it as
    [file], with [format = "PDF"]. *)
Theorem upload_blob_path (req : Upload.t) (now : string) (s : Store)
        (f : File.t) (title author genre : string) :
  Upload.file req = Some f ->
  Js.truthy (Upload.title req) = Some title ->
  Js.truthy (Upload.author req) = Some author ->
  Js.truthy (Upload.genre req) = Some genre ->
  let ext := Js.toLowerCase (extname (File.originalname f)) in
  let path := "books/" ++ slugify title ++ "-" ++ slugify author ++ ext in
  let tr := World.trace (snd (run (upload req now) s)) in
  let stored (book : Book.t) :=
    exists pre rq r books,
      tr = (pre ++ [(rq, r)])%list /\
      is_catalog_write rq /\
      written_catalog rq = Some (books ++ [book])%list /\
      failure (rq, r) = None in
  (exists r rest, tr = (get_request path, r) :: rest) /\
  (forall s1 res sha,
     serve s (get_request path) = (s1, Resolved res) ->
     decode_sha res = Return sha ->
     exists r rest,
       tr = (get_request path, Resolved res)
              :: (put_request path (FileBytes (File.buffer f))
                    ("Add: " ++ title ++ " by " ++ author) sha, r)
              :: rest) /\
  (forall rq r, In (rq, r) tr -> Request.method rq = PUT ->
     (Request.url rq = contents_url path /\
      exists b, Request.body rq = Some b /\
                Body.content b = FileBytes (File.buffer f)) \/
     (is_catalog_write rq /\
      exists books book,
        written_catalog rq = Some (books ++ [book])%list /\
        Book.file book = path /\
        Book.format book = if String.eqb ext ".epub" then "EPUB" else "PDF")) /\
  (forall message book total,
     fst (run (upload req now) s) = Return (UploadReply message book total) ->
     Book.file book = path /\
     Book.format book = (if String.eqb ext ".epub" then "EPUB" else "PDF") /\
     stored book) /\
  (title = "Moby Dick" -> author = "Herman Melville" -> ext = ".pdf" ->
   path = "books/moby-dick-herman-melville.pdf" /\
   forall message book total,
     fst (run (upload req now) s) = Return (UploadReply message book total) ->
     Book.file book = "books/moby-dick-herman-melville.pdf" /\
     Book.format book = "PDF" /\
     stored book).
Proof.
  intros Hf Ht Ha Hg ext path tr stored.
  assert (Hsuccess :
    forall message book total,
      fst (run (upload req now) s) = Return (UploadReply message book total) ->
      Book.file book = path /\
      Book.format book = (if String.eqb ext ".epub" then "EPUB" else "PDF") /\
      stored book).
  { intros message book total H.
    destruct (upload_success req now s message book total H)
      as (f' & title' & author' & genre' & res1 & sha1 & res2 & data2 & res3
          & books & sha & res4 & data4 & Hf' & Ht' & Ha' & Hg' & Htr & _ & _
          & _ & H4 & Hbook & _).
    rewrite Hf in Hf'. injection Hf' as <-.
    rewrite Ht in Ht'. injection Ht' as <-.
    rewrite Ha in Ha'. injection Ha' as <-.
    rewrite Hg in Hg'. injection Hg' as <-.
    split; [now rewrite Hbook|]. split; [now rewrite Hbook|].
    subst stored tr. cbv beta. rewrite Htr.
    eexists [_; _; _], _, _, books.
    split; [reflexivity|]. split; [split; reflexivity|].
    split; [reflexivity|]. now rewrite failure_put, H4. }
  subst tr.
  rewrite (upload_trace_valid req now s f title author genre Hf Ht Ha Hg).
  split; [apply upload_valid_first|].
  split; [intros s1 res sha; apply upload_valid_blob_write|].
  split.
  - intros rq r Hin Hput.
    destruct (upload_valid_writes _ _ _ _ _ _ _ _ _ Hin Hput)
      as [H|[Hw [books Hb]]]; [now left|right].
    split; [exact Hw|].
    exists books, (newBook f title author genre req now books).
    split; [exact Hb|]. split; reflexivity.
  - split.
    + exact Hsuccess.
    + intros Etitle Eauthor Eext.
      assert (Epath : path = "books/moby-dick-herman-melville.pdf")
        by (subst path; now rewrite Eext, Etitle, Eauthor).
      split; [exact Epath|]. intros message book total H.
      destruct (Hsuccess message book total H) as (Hfile & Hformat & Hstored).
      rewrite Hfile, Hformat, Epath. fold ext. rewrite Eext.
      split; [reflexivity|]. split; [reflexivity|exact Hstored].
Qed.

(** X1: an upload answers success only after four calls, in this order and
    none of them failing: the lookup of the blob, the write of the blob, the
    fetch of the catalog, the write of the catalog; the catalog written is
    the fetched one followed by the entry of the reply, and [total] is its
    length. *)
Theorem upload_success_means_stored (req : Upload.t) (now : string)
        (s : Store) (message : string) (book : Book.t) (total : nat) :
  fst (run (upload req now) s) = Return (UploadReply message book total) ->
  exists path blob_put r1 r2 res3 books sha catalog_put r4,
    World.trace (snd (run (upload req now) s)) =
      [(get_request path, r1); (blob_put, r2);
       (get_request "books.json", Resolved res3); (catalog_put, r4)] /\
    Request.method blob_put = PUT /\
    Request.url blob_put = contents_url path /\
    is_catalog_write catalog_put /\
    decode_books res3 = Return (books, sha) /\
    written_catalog catalog_put = Some (books ++ [book])%list /\
    total = S (List.length books) /\
    (forall e, In e (World.trace (snd (run (upload req now) s))) ->
               failure e = None).
Proof.
  intros H.
  destruct (upload_success req now s message book total H)
    as (f & title & author & genre & res1 & sha1 & res2 & data2 & res3 & books
        & sha & res4 & data4 & _ & _ & _ & _ & Ht & H1 & H2 & H3 & H4 & _ & Hn).
  rewrite Ht.
  eexists _, _, _, _, _, books, sha, _, _.
  split; [reflexivity|]. split; [reflexivity|]. split; [reflexivity|].
  split; [split; reflexivity|]. split; [exact H3|]. split; [reflexivity|].
  split; [now rewrite Hn, last_length|].
  intros e He. each_event He; subst e.
  - now rewrite failure_blob_get, H1.
  - now rewrite failure_put, H2.
  - now rewrite failure_catalog_get, H3.
  - now rewrite failure_put, H4.
Qed.

(** *** The write of the blob *)

Lemma upload_blob_write (req : Upload.t) (now : string) (s : Store)
      (rq : Request.t) (r : FetchResult) :
  In (rq, r) (World.trace (snd (run (upload req now) s))) ->
  Request.method rq = PUT ->
  ~ is_catalog_write rq ->
  exists f title author res sha rest,
    Upload.file req = Some f /\
    Js.truthy (Upload.title req) = Some title /\
    Js.truthy (Upload.author req) = Some author /\
    World.trace (snd (run (upload req now) s)) =
      (get_request (filePath_of title author (ext_of f)), Resolved res)
        :: (rq, r) :: rest /\
    decode_sha res = Return sha /\
    rq = put_request (filePath_of title author (ext_of f))
           (FileBytes (File.buffer f)) ("Add: " ++ title ++ " by " ++ author)
           sha.
Proof.
  run_cases; intros Hin Hput Hw; each_event Hin; injection Hin as <- <-;
    try discriminate Hput;
    try (elim Hw; split; reflexivity);
    (eexists _, _, _, _, _, _;
     repeat (split; [eassumption || reflexivity|]); reflexivity).
Qed.

Lemma decode_sha_absent (res : Response.t) (sha : option string) :
  decode_sha res = Return sha -> Response.status res = 404 -> sha = None.
Proof.
  unfold decode_sha. intros H E. rewrite E in H. cbn in H. now injection H as <-.
Qed.

(** X2: the write of the blob comes straight after the lookup of the same
    path, which opens the run, and presents the token that lookup returned
    when it is a non-empty string: an existing blob is updated, not
    duplicated.  It presents no token when the lookup found nothing. *)
Theorem blob_write_presents_lookup_token (req : Upload.t) (now : string)
        (s : Store) (rq : Request.t) (r : FetchResult) :
  In (rq, r) (World.trace (snd (run (upload req now) s))) ->
  Request.method rq = PUT ->
  ~ is_catalog_write rq ->
  exists path res sha rest,
    World.trace (snd (run (upload req now) s)) =
      (get_request path, Resolved res) :: (rq, r) :: rest /\
    Request.url rq = contents_url path /\
    decode_sha res = Return sha /\
    (forall token, sha = Some token -> token <> "" ->
                   presented_token rq = Some token) /\
    (presented_token rq = None -> sha = None \/ sha = Some "") /\
    (Response.status res = 404 -> presented_token rq = None).
Proof.
  intros Hin Hput Hw.
  destruct (upload_blob_write req now s rq r Hin Hput Hw)
    as (f & title & author & res & sha & rest & _ & _ & _ & Ht & Hd & ->).
  exists (filePath_of title author (ext_of f)), res, sha, rest.
  split; [exact Ht|]. split; [reflexivity|]. split; [exact Hd|].
  cbn [presented_token put_request Request.body Body.sha]. split; [|split].
  - apply truthy_token.
  - apply truthy_no_token.
  - intros E. now rewrite (decode_sha_absent res sha Hd E).
Qed.

(** X3: when the fetch reports the catalog absent, the upload creates it:
    the document written holds the new entry alone, with id 1, and the
    write presents no token. *)
Theorem upload_creates_catalog (req : Upload.t) (now : string) (s : Store)
        (rq : Request.t) (r : FetchResult) :
  In (rq, r) (World.trace (snd (run (upload req now) s))) ->
  is_catalog_write rq ->
  exists pre res,
    World.trace (snd (run (upload req now) s)) =
      (pre ++ [(get_request "books.json", Resolved res); (rq, r)])%list /\
    (Response.status res = 404 ->
     exists book,
       written_catalog rq = Some [book] /\
       Book.id book = Some 1 /\
       presented_token rq = None).
Proof.
  intros Hin Hw.
  destruct (upload_catalog_write req now s rq r Hin Hw)
    as (f & title & author & genre & pre & res & books & sha & _ & _ & _ & _
        & Ht & Hd & Hb).
  exists pre, res. split; [exact Ht|]. intros E.
  destruct (decode_books_absent res books sha Hd E) as [-> ->].
  exists (newBook f title author genre req now []).
  unfold written_catalog, presented_token. rewrite Hb. repeat split.
Qed.

(** *** A failure between the two writes *)

(** Closes a goal whose hypothesis says that a request of the blob phase
    addresses the catalog, or that a GET writes or a PUT reads. *)
Ltac absurd_request H :=
  lazymatch type of H with
  | get_request (filePath_of _ _ _) = get_request _ =>
      apply blob_get_is_not_catalog_get in H; destruct H
  | put_request _ _ _ _ = get_request _ =>
      apply (f_equal Request.method) in H; discriminate H
  | is_catalog_write (get_request _) =>
      apply not_catalog_write_get in H; destruct H
  | is_catalog_write (put_request (filePath_of _ _ _) _ _ _) =>
      apply not_catalog_write_blob in H; destruct H
  end.

Ltac accepted_put :=
  rewrite failure_put;
  match goal with
  | E : decode_commit ?res = Return _ |- thrown (decode_commit ?res) = None =>
      rewrite E; reflexivity
  end.

(** X4: an upload is not atomic.  When the fetch or the write of the
    catalog fails, the blob has been written and accepted before, the
    failing call is the last one (nothing is undone) and the reply is 500. *)
Theorem catalog_failure_leaves_blob (req : Upload.t) (now : string)
        (s : Store) (e : Request.t * FetchResult) (message : string) :
  In e (World.trace (snd (run (upload req now) s))) ->
  is_catalog_read (fst e) \/ is_catalog_write (fst e) ->
  failure e = Some message ->
  exists path blob_put r1 r2 mid,
    World.trace (snd (run (upload req now) s)) =
      ((get_request path, r1) :: (blob_put, r2) :: mid ++ [e])%list /\
    Request.method blob_put = PUT /\
    Request.url blob_put = contents_url path /\
    failure (blob_put, r2) = None /\
    Forall (fun ev => Request.method (fst ev) = GET) mid /\
    fst (run (upload req now) s) =
      Return (ErrorReply 500 (client_text (UploadBook req now) message)).
Proof.
  intros Hin Hcat Hf.
  destruct (failure_is_caught (UploadBook req now) s e message Hin Hf)
    as [Hreply _]. cbn [handle] in Hreply. rewrite Hreply. clear Hreply.
  revert Hin Hcat Hf.
  run_cases; intros Hin Hcat Hf; each_event Hin; subst e;
    failure_of Hf; decoded Hf; cbn [thrown] in Hf; try discriminate Hf;
    cbn [fst] in Hcat; unfold is_catalog_read in Hcat;
    destruct Hcat as [Hcat|Hcat]; try absurd_request Hcat;
    first
      [ eexists _, _, _, _, [];
        split; [reflexivity|]; split; [reflexivity|]; split; [reflexivity|];
        split; [accepted_put|]; split; [constructor|reflexivity]
      | eexists _, _, _, _, [_];
        split; [reflexivity|]; split; [reflexivity|]; split; [reflexivity|];
        split; [accepted_put|]; split; [repeat constructor|reflexivity] ].
Qed.

(** *** Delete *)

Lemma findIndex_some {A : Type} (p : A -> bool) (l : list A) (idx : nat) :
  findIndex p l = Some idx ->
  exists before x after,
    l = (before ++ x :: after)%list /\
    p x = true /\
    forallb (fun y => negb (p y)) before = true /\
    nth_error l idx = Some x /\
    splice1 idx l = (before ++ after)%list.
Proof.
  revert idx. induction l as [|a l IH]; intros idx H; [discriminate H|].
  cbn [findIndex] in H. destruct (p a) eqn:Ea.
  - injection H as <-. exists [], a, l. repeat split. exact Ea.
  - destruct (findIndex p l) as [i|]; [|discriminate H].
    injection H as <-.
    destruct (IH i eq_refl) as (before & x & after & -> & Hx & Hb & Hn & Hs).
    exists (a :: before), x, after. repeat split; try assumption.
    + cbn [forallb]. now rewrite Ea, Hb.
    + unfold splice1 in *. cbn [firstn skipn app]. cbn [skipn] in Hs.
      now rewrite Hs.
Qed.

Lemma same_id_true (id : option Z) (b : Book.t) :
  same_id id b = true -> exists n, id = Some n /\ Book.id b = Some n.
Proof.
  unfold same_id. destruct (Book.id b) as [x|]; [|discriminate].
  destruct id as [y|]; [|discriminate]. intros H. apply Z.eqb_eq in H.
  subst y. now exists x.
Qed.

Lemma same_id_false (n : Z) (b : Book.t) :
  negb (same_id (Some n) b) = true -> Book.id b <> Some n.
Proof.
  unfold same_id. intros H E. rewrite E, Z.eqb_refl in H. discriminate H.
Qed.

(** X5: the catalog a delete writes is the fetched one without the first
    entry whose id is the number [parseInt] reads in the route parameter;
    the entries before it have another id or none, and every other entry
    stays, in its place.  An entry without id is never removed. *)
Theorem delete_removes_first_match (req : Delete.t) (s : Store)
        (rq : Request.t) (r : FetchResult) :
  In (rq, r) (World.trace (snd (run (deleteBook req) s))) ->
  is_catalog_write rq ->
  exists res books sha n before removed after,
    World.trace (snd (run (deleteBook req) s)) =
      [(get_request "books.json", Resolved res); (rq, r)] /\
    decode_books res = Return (books, sha) /\
    parseInt (Delete.id req) = Some n /\
    books = (before ++ removed :: after)%list /\
    Book.id removed = Some n /\
    (forall b, In b before -> Book.id b <> Some n) /\
    written_catalog rq = Some (before ++ after)%list.
Proof.
  intros Hin Hw.
  destruct (delete_catalog_write req s rq r Hin Hw)
    as (res & books & sha & idx & Ht & Hd & Hi & Hb).
  destruct (findIndex_some _ _ _ Hi)
    as (before & removed & after & Hl & Hx & Hbefore & _ & Hs).
  destruct (same_id_true _ _ Hx) as (n & Hn & Hid).
  exists res, books, sha, n, before, removed, after.
  repeat (split; [assumption|]). split.
  - intros b Hb'. rewrite forallb_forall in Hbefore.
    apply same_id_false. rewrite <- Hn. now apply Hbefore.
  - unfold written_catalog. now rewrite Hb, Hs.
Qed.

Lemma delete_success (req : Delete.t) (s : Store) (message : string)
      (removed : Book.t) :
  fst (run (deleteBook req) s) = Return (DeleteReply message removed) ->
  exists res books sha idx res2 data2,
    World.trace (snd (run (deleteBook req) s)) =
      [(get_request "books.json", Resolved res);
       (put_request "books.json" (CatalogJson (splice1 idx books))
          ("Update catalog — "
             ++ Js.showZ (Z.of_nat (List.length (splice1 idx books)))
             ++ " books") sha, Resolved res2)] /\
    decode_books res = Return (books, sha) /\
    findIndex (same_id (parseInt (Delete.id req))) books = Some idx /\
    nth_error books idx = Some removed /\
    decode_commit res2 = Return data2 /\
    message = dquote ++ Book.title removed ++ dquote ++ " removed.".
Proof.
  run_cases; intros H; try discriminate H; injection H as <- <-;
    eexists _, _, _, _, _, _;
    repeat (split; [eassumption || reflexivity|]); reflexivity.
Qed.

(** X6: a delete answers success only after two calls, the fetch of the
    catalog and its write, neither failing; the entry of the reply is the
    first fetched entry with the requested id, and the catalog written is
    the fetched one without it. *)
Theorem delete_success_means_removed (req : Delete.t) (s : Store)
        (message : string) (removed : Book.t) :
  fst (run (deleteBook req) s) = Return (DeleteReply message removed) ->
  exists res books sha n before after catalog_put r2,
    World.trace (snd (run (deleteBook req) s)) =
      [(get_request "books.json", Resolved res); (catalog_put, r2)] /\
    is_catalog_write catalog_put /\
    decode_books res = Return (books, sha) /\
    parseInt (Delete.id req) = Some n /\
    books = (before ++ removed :: after)%list /\
    Book.id removed = Some n /\
    (forall b, In b before -> Book.id b <> Some n) /\
    written_catalog catalog_put = Some (before ++ after)%list /\
    (forall e, In e (World.trace (snd (run (deleteBook req) s))) ->
               failure e = None).
Proof.
  intros H.
  destruct (delete_success req s message removed H)
    as (res & books & sha & idx & res2 & data2 & Ht & Hd & Hi & Hn & Hc & _).
  destruct (findIndex_some _ _ _ Hi)
    as (before & x & after & Hl & Hx & Hbefore & Hnth & Hs).
  rewrite Hnth in Hn. injection Hn as ->.
  destruct (same_id_true _ _ Hx) as (n & Hp & Hid).
  rewrite Ht. eexists res, books, sha, n, before, after, _, _.
  split; [reflexivity|]. split; [split; reflexivity|].
  repeat (split; [assumption|]). split; [|split].
  - intros b Hb'. rewrite forallb_forall in Hbefore.
    apply same_id_false. rewrite <- Hp. now apply Hbefore.
  - cbn [written_catalog put_request Request.body Body.content]. now rewrite Hs.
  - intros e He. each_event He; subst e.
    + now rewrite failure_catalog_get, Hd.
    + now rewrite failure_put, Hc.
Qed.

(** *** List *)

(** X7: listing the catalog sends exactly one request, the GET of the
    catalog, and never writes; an absent catalog is listed as empty, with
    success; the count of a success is the number of entries sent. *)
Theorem list_is_read_only (s : Store) :
  exists r,
    World.trace (snd (run listBooks s)) = [(get_request "books.json", r)] /\
    World.store (snd (run listBooks s)) = fst (serve s (get_request "books.json")) /\
    (forall res, r = Resolved res -> Response.status res = 404 ->
       fst (run listBooks s) = Return (BooksReply 0 [])) /\
    (forall count books, fst (run listBooks s) = Return (BooksReply count books) ->
       count = List.length books).
Proof.
  run_cases; eexists; (split; [reflexivity|]); (split; [reflexivity|]); split;
    try (intros res0 E; injection E as <-);
    try (intros res0 E; discriminate E);
    try (intros count books0 E; discriminate E);
    try (intros count books0 E; now injection E as <- <-).
  all: intros E404;
    match goal with
    | H : decode_books ?res = _ |- _ =>
        unfold decode_books in H; rewrite E404 in H; cbn in H
    end;
    match goal with
    | H : Return _ = Throw _ |- _ => discriminate H
    | H : Return _ = Return _ |- _ => injection H as <- <-; reflexivity
    end.
Qed.

(** *** What an upload stores *)

Lemma trimStart_head (l : list ascii) :
  head_is Js.is_space (Js.trimStart_chars l) = false.
Proof.
  induction l as [|c l IH]; [reflexivity|]. cbn [Js.trimStart_chars].
  destruct (Js.is_space c) eqn:E; [exact IH|exact E].
Qed.

Lemma trimStart_suffix (l : list ascii) :
  exists p, l = (p ++ Js.trimStart_chars l)%list.
Proof.
  induction l as [|c l [p IH]]; [now exists []|]. cbn [Js.trimStart_chars].
  destruct (Js.is_space c); [|now exists []].
  exists (c :: p). cbn [app]. now rewrite <- IH.
Qed.

Lemma trim_chars_trimmed (l : list ascii) :
  head_is Js.is_space (Js.trim_chars l) = false /\
  head_is Js.is_space (rev (Js.trim_chars l)) = false.
Proof.
  unfold Js.trim_chars. split; [|rewrite rev_involutive; apply trimStart_head].
  pose proof (trimStart_head l) as Hhead.
  destruct (trimStart_suffix (rev (Js.trimStart_chars l))) as [p Hp].
  apply (f_equal (@rev ascii)) in Hp. rewrite rev_involutive, rev_app_distr in Hp.
  destruct (rev (Js.trimStart_chars (rev (Js.trimStart_chars l)))) as [|c w];
    [reflexivity|].
  rewrite Hp in Hhead. exact Hhead.
Qed.

Lemma trim_trimmed (s : string) : trimmed (Js.trim s).
Proof. unfold trimmed, Js.trim. rewrite chars_str. apply trim_chars_trimmed. Qed.

Lemma trimStart_all_space (l : list ascii) :
  forallb Js.is_space l = true -> Js.trimStart_chars l = [].
Proof.
  induction l as [|c l IH]; [reflexivity|]. cbn [forallb Js.trimStart_chars].
  intros H. apply andb_prop in H. destruct H as [-> H]. now apply IH.
Qed.

Lemma trim_all_space (s : string) :
  forallb Js.is_space (Js.chars s) = true -> Js.trim s = "".
Proof.
  intros H. unfold Js.trim, Js.trim_chars. now rewrite (trimStart_all_space _ H).
Qed.

(** X8: the text fields of the entry an upload stores (title, author,
    genre, language, description) neither begin nor end with white space. *)
Theorem stored_text_is_trimmed (req : Upload.t) (now : string) (s : Store)
        (rq : Request.t) (r : FetchResult) :
  In (rq, r) (World.trace (snd (run (upload req now) s))) ->
  is_catalog_write rq ->
  exists books book,
    written_catalog rq = Some (books ++ [book])%list /\
    trimmed (Book.title book) /\ trimmed (Book.author book) /\
    trimmed (Book.genre book) /\ trimmed (Book.language book) /\
    trimmed (Book.description book).
Proof.
  intros Hin Hw.
  destruct (upload_catalog_write req now s rq r Hin Hw)
    as (f & title & author & genre & pre & res & books & sha & _ & _ & _ & _
        & _ & _ & Hb).
  exists books, (newBook f title author genre req now books).
  split; [unfold written_catalog; now rewrite Hb|].
  cbn [newBook Book.title Book.author Book.genre Book.language Book.description].
  repeat split; apply trim_trimmed.
Qed.

(** X9: the required fields are checked before they are trimmed: a title,
    author or genre made of white space only passes the check and is
    stored as the empty string. *)
Theorem blank_field_is_stored_empty (req : Upload.t) (now : string)
        (s : Store) (rq : Request.t) (r : FetchResult) :
  In (rq, r) (World.trace (snd (run (upload req now) s))) ->
  is_catalog_write rq ->
  exists title author genre books book,
    Js.truthy (Upload.title req) = Some title /\
    Js.truthy (Upload.author req) = Some author /\
    Js.truthy (Upload.genre req) = Some genre /\
    written_catalog rq = Some (books ++ [book])%list /\
    (forallb Js.is_space (Js.chars title) = true -> Book.title book = "") /\
    (forallb Js.is_space (Js.chars author) = true -> Book.author book = "") /\
    (forallb Js.is_space (Js.chars genre) = true -> Book.genre book = "").
Proof.
  intros Hin Hw.
  destruct (upload_catalog_write req now s rq r Hin Hw)
    as (f & title & author & genre & pre & res & books & sha & _ & Ht & Ha & Hg
        & _ & _ & Hb).
  exists title, author, genre, books, (newBook f title author genre req now books).
  repeat (split; [assumption|]).
  split; [unfold written_catalog; now rewrite Hb|].
  cbn [newBook Book.title Book.author Book.genre].
  repeat split; apply trim_all_space.
Qed.

Lemma nextId_fresh (books : list Book.t) (b : Book.t) (k : Z) :
  (forall b k, In b books -> Book.id b = Some k -> safe_integer k) ->
  In b books -> Book.id b = Some k -> k < nextId books.
Proof.
  intros Hsafe Hin Hk.
  destruct books as [|b0 bs]; [destruct Hin|]. rewrite (nextId_exact b0 bs Hsafe).
  destruct (Math_max_spec (map id_or_0 bs) (id_or_0 b0)) as (_ & Hle & Hall).
  rewrite <- (id_or_0_id b k Hk). destruct Hin as [<-|Hin]; [lia|].
  specialize (Hall (id_or_0 b) (in_map id_or_0 bs b Hin)). lia.
Qed.

(** X10: when every id found in the fetched catalog is an integer of
    magnitude below 2^53, the id of the entry an upload appends is greater
    than each of them, whatever else the catalog holds (entries without id,
    ids that repeat, non-positive ids): the new id is the id of no fetched
    entry. *)
Theorem upload_id_is_fresh (req : Upload.t) (now : string) (s : Store)
        (rq : Request.t) (r : FetchResult) :
  In (rq, r) (World.trace (snd (run (upload req now) s))) ->
  is_catalog_write rq ->
  exists pre res books sha book n,
    World.trace (snd (run (upload req now) s)) =
      (pre ++ [(get_request "books.json", Resolved res); (rq, r)])%list /\
    decode_books res = Return (books, sha) /\
    written_catalog rq = Some (books ++ [book])%list /\
    Book.id book = Some n /\
    ((forall b k, In b books -> Book.id b = Some k ->
                  Z.abs k < 9007199254740992) ->
     (forall b k, In b books -> Book.id b = Some k -> k < n) /\
     (forall b, In b books -> Book.id b <> Some n)).
Proof.
  intros Hin Hw.
  destruct (upload_catalog_write req now s rq r Hin Hw)
    as (f & title & author & genre & pre & res & books & sha & _ & _ & _ & _
        & Ht & Hd & Hb).
  exists pre, res, books, sha, (newBook f title author genre req now books),
    (nextId books).
  split; [exact Ht|]. split; [exact Hd|].
  split; [unfold written_catalog; now rewrite Hb|]. split; [reflexivity|].
  intros Hsafe.
  split; [intros b k; now apply nextId_fresh|].
  intros b Hb' E. pose proof (nextId_fresh books b _ Hsafe Hb' E). lia.
Qed.

(** X11: ids are not kept for ever.  Once the entry with the greatest id is
    removed, the next id allocated is at most the id of the removed entry,
    whereas it was that id plus one before.  The ids are positive integers
    below 2^53. *)
Theorem removed_id_can_come_back (before after : list Book.t)
        (removed : Book.t) (n : Z) :
  Book.id removed = Some n -> 0 < n -> n < 9007199254740992 ->
  (forall b, In b (before ++ after) ->
             exists k, Book.id b = Some k /\ 0 < k /\ k < n) ->
  nextId (before ++ removed :: after) = n + 1 /\
  nextId (before ++ after) <= n.
Proof.
  intros Hn Hpos Hsafe Hrest. split.
  - assert (Hall : forall b, In b (before ++ removed :: after) ->
                             exists k, Book.id b = Some k /\
                                       0 < k < 9007199254740992).
    { intros b Hb. apply in_app_or in Hb. destruct Hb as [Hb|[<-|Hb]].
      - destruct (Hrest b) as (k & E & P & Q); [apply in_or_app; now left|].
        exists k. split; [exact E|lia].
      - exists n. split; [exact Hn|lia].
      - destruct (Hrest b) as (k & E & P & Q); [apply in_or_app; now right|].
        exists k. split; [exact E|lia]. }
    destruct (nextId_spec _ Hall) as [_ Hmax].
    destruct Hmax as ((b & Hb & Eb) & Hle); [now destruct before|].
    assert (n <= nextId (before ++ removed :: after) - 1).
    { apply (Hle removed n); [apply in_or_app; right; now left|exact Hn]. }
    assert (nextId (before ++ removed :: after) - 1 <= n).
    { apply in_app_or in Hb. destruct Hb as [Hb|[<-|Hb]].
      - destruct (Hrest b) as (k & E & _ & Hk); [apply in_or_app; now left|].
        rewrite E in Eb. injection Eb as Eb. lia.
      - rewrite Hn in Eb. injection Eb as Eb. lia.
      - destruct (Hrest b) as (k & E & _ & Hk); [apply in_or_app; now right|].
        rewrite E in Eb. injection Eb as Eb. lia. }
    lia.
  - destruct (before ++ after)%list as [|b0 rest] eqn:E; [cbn; lia|].
    assert (Hall : forall b, In b (b0 :: rest) ->
                             exists k, Book.id b = Some k /\
                                       0 < k < 9007199254740992).
    { intros b Hb. destruct (Hrest b Hb) as (k & Ek & P & Q).
      exists k. split; [exact Ek|lia]. }
    destruct (nextId_spec _ Hall) as [_ Hmax].
    destruct Hmax as ((b & Hb & Eb) & _); [discriminate|].
    destruct (Hrest b Hb) as (k & Ek & _ & Hk). rewrite Ek in Eb.
    injection Eb as Eb. lia.
Qed.

(** *** The default secret *)

(** X12: when [ADMIN_SECRET] is unset or empty, the server starts with the
    secret written in the source: a delete that presents
    [Bearer changeme-admin-secret] passes the check and reaches the host. *)
Theorem default_secret_opens_delete (env : Env) (cfg : Config)
        (req : Delete.t) (s : Store) :
  startup env = Some cfg ->
  blank (env "ADMIN_SECRET") = true ->
  Delete.authorization req = Some "Bearer changeme-admin-secret" ->
  fst (run (@deleteBook remote cfg req) s) <>
    Return (ErrorReply 401 "Unauthorized.") /\
  exists r rest,
    World.trace (snd (run (@deleteBook remote cfg req) s)) =
      (@get_request cfg "books.json", r) :: rest.
Proof.
  intros Hs Hb Ha. unfold startup in Hs.
  destruct (Js.truthy (env "GITHUB_TOKEN")); [|discriminate Hs].
  destruct (Js.truthy (env "GITHUB_OWNER")) as [owner|]; [|discriminate Hs].
  destruct (Js.truthy (env "GITHUB_REPO")) as [repo|]; [|discriminate Hs].
  injection Hs as <-.
  assert (Hsecret : or_default (env "ADMIN_SECRET") "changeme-admin-secret" =
                    "changeme-admin-secret").
  { unfold or_default. now rewrite (blank_truthy _ Hb). }
  unfold run, deleteBook. rewrite Ha. cbn [ADMIN_SECRET].
  rewrite Hsecret. cbn [append]. rewrite String.eqb_refl. cbn [negb].
  run_cases; (split; [discriminate|eexists _, _; reflexivity]).
Qed.

(** *** Numbers in text *)

Lemma digits_acc (d : Decimal.uint) (acc : positive) :
  parse_digits 10 (Some (Z.pos acc)) (Js.chars (NilEmpty.string_of_uint d)) =
  Some (Z.pos (Pos.of_uint_acc d acc)).
Proof.
  revert acc. induction d as [|d IH|d IH|d IH|d IH|d IH|d IH|d IH|d IH|d IH|d IH];
    intros acc; [reflexivity|..];
    cbn [NilEmpty.string_of_uint Js.chars list_ascii_of_string parse_digits];
    change (list_ascii_of_string (NilEmpty.string_of_uint d))
      with (Js.chars (NilEmpty.string_of_uint d));
    cbn [Pos.of_uint_acc]; rewrite <- IH;
    match goal with
    | |- context [digit_value 10 ?c] =>
        let v := eval vm_compute in (digit_value 10 c) in
        change (digit_value 10 c) with v
    end;
    cbv iota beta; do 2 f_equal; lia.
Qed.

Lemma digits_zero (d : Decimal.uint) :
  parse_digits 10 (Some 0) (Js.chars (NilEmpty.string_of_uint d)) =
  Some (Z.of_N (Pos.of_uint d)).
Proof.
  induction d as [|d IH|d IH|d IH|d IH|d IH|d IH|d IH|d IH|d IH|d IH];
    [reflexivity|exact IH|..]; apply (digits_acc d).
Qed.

Lemma digits_none (d : Decimal.uint) :
  d <> Decimal.Nil ->
  parse_digits 10 None (Js.chars (NilEmpty.string_of_uint d)) =
  Some (Z.of_N (Pos.of_uint d)).
Proof.
  destruct d; intros H; [now elim H|..];
    cbn [NilEmpty.string_of_uint Js.chars list_ascii_of_string parse_digits];
    change (list_ascii_of_string (NilEmpty.string_of_uint d))
      with (Js.chars (NilEmpty.string_of_uint d));
    match goal with
    | |- context [digit_value 10 ?c] =>
        let v := eval vm_compute in (digit_value 10 c) in
        change (digit_value 10 c) with v
    end;
    cbv iota beta; [exact (digits_zero d)|..]; exact (digits_acc d _).
Qed.

Lemma uint_digits (d : Decimal.uint) :
  forallb is_digit (Js.chars (NilEmpty.string_of_uint d)) = true.
Proof. induction d; [reflexivity|..]; exact IHd. Qed.

Lemma mul_1_option (o : option Z) : option_map (Z.mul 1) o = o.
Proof. destruct o as [z|]; [|reflexivity]. cbn [option_map]. f_equal. lia. Qed.

Lemma digit_has_value (c : ascii) :
  is_digit c = true -> exists v, digit_value 10 c = Some v.
Proof.
  destruct c as [[] [] [] [] [] [] [] []]; intros H; try discriminate H;
    eexists; reflexivity.
Qed.

Lemma stops_no_value (c : ascii) : stops c = true -> digit_value 10 c = None.
Proof.
  destruct c as [[] [] [] [] [] [] [] []]; intros H; try discriminate H;
    reflexivity.
Qed.

Lemma parse_digits_stop (l rest : list ascii) (acc : option Z) :
  forallb is_digit l = true -> ends_number rest = true ->
  parse_digits 10 acc (l ++ rest) = parse_digits 10 acc l.
Proof.
  revert acc. induction l as [|c l IH]; intros acc Hl Hr.
  - destruct rest as [|c r]; [reflexivity|]. cbn [app parse_digits].
    now rewrite (stops_no_value c Hr).
  - cbn [forallb] in Hl. apply andb_prop in Hl. destruct Hl as [Hc Hl].
    cbn [app parse_digits]. destruct (digit_has_value c Hc) as [v ->].
    now apply IH.
Qed.

(** The sign and prefix analysis of [parseInt] on a text that starts with a
    digit: no sign, no [0x]. *)
Lemma parseInt_number (c : ascii) (t : list ascii) :
  is_digit c = true -> (is_digit (hd "0"%char t) = true \/ ends_number t = true) ->
  mathInt (Js.str (c :: t)) = parse_digits 10 None (c :: t) /\
  mathInt (Js.str ("-"%char :: c :: t)) =
    option_map (Z.mul (-1)) (parse_digits 10 None (c :: t)).
Proof.
  intros Hc Ht. unfold mathInt. rewrite !chars_str.
  destruct c as [[] [] [] [] [] [] [] []]; try discriminate Hc;
    try (split; [apply mul_1_option|reflexivity]).
  destruct t as [|d t]; [split; [apply mul_1_option|reflexivity]|].
  cbn [hd ends_number] in Ht.
  destruct d as [[] [] [] [] [] [] [] []];
    try (split; [apply mul_1_option|reflexivity]);
    destruct Ht as [Ht|Ht]; discriminate Ht.
Qed.

Lemma chars_append (a b : string) :
  Js.chars (a ++ b) = (Js.chars a ++ Js.chars b)%list.
Proof.
  unfold Js.chars. induction a as [|c a IH]; [reflexivity|].
  cbn [append list_ascii_of_string app]. now rewrite IH.
Qed.

Lemma str_chars (s : string) : Js.str (Js.chars s) = s.
Proof. apply string_of_list_ascii_of_string. Qed.

Lemma parse_uint (d : Decimal.uint) (rest : string) :
  d <> Decimal.Nil -> ends_number (Js.chars rest) = true ->
  mathInt (NilEmpty.string_of_uint d ++ rest) = Some (Z.of_N (Pos.of_uint d)) /\
  mathInt (String "-" (NilEmpty.string_of_uint d ++ rest)) =
    option_map (Z.mul (-1)) (Some (Z.of_N (Pos.of_uint d))).
Proof.
  intros Hd Hr.
  pose proof (uint_digits d) as Hdig. pose proof (digits_none d Hd) as Hval.
  assert (Hl : exists c t, Js.chars (NilEmpty.string_of_uint d) = c :: t).
  { destruct d; [now elim Hd|..]; eexists _, _; reflexivity. }
  destruct Hl as (c & t & Hl). rewrite Hl in Hdig, Hval.
  cbn [forallb] in Hdig. apply andb_prop in Hdig. destruct Hdig as [Hc Ht].
  assert (Hnext : is_digit (hd "0"%char (t ++ Js.chars rest)) = true \/
                  ends_number (t ++ Js.chars rest) = true).
  { destruct t as [|d' t]; [now right|left].
    cbn [forallb] in Ht. apply andb_prop in Ht. now destruct Ht. }
  destruct (parseInt_number c (t ++ Js.chars rest) Hc Hnext) as [Hpos Hneg].
  assert (Hstop : parse_digits 10 None (c :: t ++ Js.chars rest) =
                  Some (Z.of_N (Pos.of_uint d))).
  { rewrite <- Hval. apply (parse_digits_stop (c :: t)); [|exact Hr].
    cbn [forallb]. now rewrite Hc, Ht. }
  rewrite Hstop in Hpos, Hneg.
  rewrite <- (str_chars (NilEmpty.string_of_uint d ++ rest)).
  rewrite chars_append, Hl. cbn [app]. split; [exact Hpos|].
  change (String "-" (Js.str (c :: t ++ Js.chars rest)))
    with (Js.str ("-"%char :: c :: t ++ Js.chars rest)).
  exact Hneg.
Qed.

Lemma number_safe (z : Z) : safe_integer z -> Js.number z = Some z.
Proof.
  unfold safe_integer, Js.number. intros H. rewrite round_exact by lia.
  destruct (Z.ltb_spec (Z.abs z) (2 ^ 1024)) as [_|Hge]; [reflexivity|].
  exfalso. apply (Z.lt_irrefl (Z.abs z)).
  apply (Z.lt_le_trans _ _ _ H). apply (Z.le_trans _ (2 ^ 1024)); [|exact Hge].
  vm_compute. discriminate.
Qed.

(** Above 2^53 the doubles are two apart, then four, and a sum or a text
    in between goes to the nearest, the even significand on a tie. *)
Lemma numbers_above_2_53 :
  parseInt "9007199254740993" = Some 9007199254740992 /\
  parseInt "9007199254740995" = Some 9007199254740996 /\
  parseInt "18014398509481987" = Some 18014398509481988 /\
  nextId [entry (Some 9007199254740991) "A"] = 9007199254740992 /\
  nextId [entry (Some 9007199254740992) "A"] = 9007199254740992 /\
  nextId [entry (Some 9007199254740994) "A"] = 9007199254740996.
Proof. repeat split. Qed.

Lemma mathInt_reads_decimal (n : Z) (rest : string) :
  ends_number (Js.chars rest) = true ->
  mathInt (Js.showZ n ++ rest) = Some n.
Proof.
  intros Hr. unfold Js.showZ.
  destruct n as [|p|p]; cbn [Z.to_int NilZero.string_of_int].
  - destruct (parse_uint (Decimal.D0 Decimal.Nil) rest) as [H _];
      [discriminate|exact Hr|exact H].
  - pose proof (DecimalPos.Unsigned.to_uint_nonnil p) as Hnil.
    destruct (parse_uint (Pos.to_uint p) rest Hnil Hr) as [H _].
    rewrite DecimalPos.Unsigned.of_to in H. etransitivity; [|exact H]. do 2 f_equal.
    unfold NilZero.string_of_uint. now destruct (Pos.to_uint p).
  - pose proof (DecimalPos.Unsigned.to_uint_nonnil p) as Hnil.
    destruct (parse_uint (Pos.to_uint p) rest Hnil Hr) as [_ H].
    rewrite DecimalPos.Unsigned.of_to in H. etransitivity; [|exact H]. cbn [append].
    do 3 f_equal.
    unfold NilZero.string_of_uint. now destruct (Pos.to_uint p).
Qed.

(** X13: [parseInt] reads back the decimal text of every integer of
    magnitude below 2^53, and stops at the first character that cannot
    continue a number: the text of [n] followed by such a character, and
    anything after it, is read as [n].  So [/api/books/7] and
    [/api/books/7abc] name the same id. *)
Theorem parseInt_reads_decimal (n : Z) (rest : string) :
  Z.abs n < 9007199254740992 ->
  ends_number (Js.chars rest) = true ->
  parseInt (Js.showZ n ++ rest) = Some n.
Proof.
  intros Hn Hr. unfold parseInt. rewrite (mathInt_reads_decimal n rest Hr).
  now apply number_safe.
Qed.

(** *** Paths *)

Lemma folded_lower (s : string) :
  folded s = map unaccent (Js.chars (Js.toLowerCase s)).
Proof. unfold folded, Js.toLowerCase. now rewrite chars_str. Qed.

Lemma slugify_folded (s t : string) : folded s = folded t -> slugify s = slugify t.
Proof.
  intros H. rewrite !slugify_as_described. unfold slugify_described.
  fold (folded s). fold (folded t). now rewrite H.
Qed.

(** X14: the slug tells neither letter case nor the accents it folds: two
    uploads whose titles and whose authors differ only in these, with the
    same extension, use the same blob path, so the second overwrites the
    blob of the first. *)
Theorem same_folded_text_same_path (title1 title2 author1 author2 ext : string) :
  (Js.toLowerCase title1 = Js.toLowerCase title2 \/ folded title1 = folded title2) ->
  (Js.toLowerCase author1 = Js.toLowerCase author2 \/
   folded author1 = folded author2) ->
  slugify title1 = slugify title2 /\
  slugify author1 = slugify author2 /\
  filePath_of title1 author1 ext = filePath_of title2 author2 ext.
Proof.
  intros Ht Ha.
  assert (Et : folded title1 = folded title2).
  { destruct Ht as [E|E]; [|exact E]. now rewrite !folded_lower, E. }
  assert (Ea : folded author1 = folded author2).
  { destruct Ha as [E|E]; [|exact E]. now rewrite !folded_lower, E. }
  unfold filePath_of.
  rewrite (slugify_folded _ _ Et), (slugify_folded _ _ Ea). repeat split.
Qed.

Lemma forallb_chars_append (p : ascii -> bool) (a b : string) :
  forallb p (Js.chars (a ++ b)) = forallb p (Js.chars a) && forallb p (Js.chars b).
Proof. now rewrite chars_append, forallb_app. Qed.

Lemma length_append (a b : string) :
  String.length (a ++ b) = (String.length a + String.length b)%nat.
Proof. induction a as [|c a IH]; [reflexivity|]. cbn. now rewrite IH. Qed.

(** X15: whatever the title and the author, the blob path is [books/],
    then at most 121 characters of [[a-z0-9-]], then the extension: no text
    of the user reaches the path unfiltered. *)
Theorem blob_path_is_safe (title author ext : string) :
  exists name,
    filePath_of title author ext = "books/" ++ name ++ ext /\
    forallb slug_char (Js.chars name) = true /\
    (String.length name <= 121)%nat.
Proof.
  exists (slugify title ++ "-" ++ slugify author).
  destruct (slugify_normal title) as (Ht & _ & Lt).
  destruct (slugify_normal author) as (Ha & _ & La).
  rewrite length_chars in Lt, La. split; [|split].
  - unfold filePath_of. now rewrite !append_assoc3.
  - rewrite !forallb_chars_append, Ht, Ha. reflexivity.
  - rewrite !length_append. cbn [String.length]. lia.
Qed.

(** *** Sizes *)

(** X16: the size an entry shows is the size of the file in megabytes
    rounded to the nearest tenth, halves upwards; a file of less than
    52429 bytes shows as "0.0 MB". *)
Theorem fileSize_rounds_to_tenth (size : N) :
  fileSize_of size =
    Js.showN (size_tenths size / 10)%N ++ "."
      ++ Js.showN (size_tenths size mod 10)%N ++ " MB" /\
  (1048576 * size_tenths size <= 10 * size + 524288)%N /\
  (10 * size + 524288 < 1048576 * size_tenths size + 1048576)%N /\
  (size_tenths size mod 10 < 10)%N /\
  ((size < 52429)%N -> fileSize_of size = "0.0 MB").
Proof.
  split; [reflexivity|]. unfold size_tenths.
  assert (Hnz : 1048576%N <> 0%N) by discriminate.
  pose proof (N.Div0.mul_div_le (10 * size + 524288) 1048576) as Hle.
  pose proof (N.mul_succ_div_gt (10 * size + 524288) 1048576 Hnz) as Hgt.
  split; [exact Hle|]. split; [lia|]. split; [apply N.mod_lt; discriminate|].
  intros Hsmall. unfold fileSize_of.
  replace ((10 * size + 524288) / 1048576)%N with 0%N; [reflexivity|].
  symmetry. apply N.div_small. lia.
Qed.

(** *** The upload filter and the error middleware *)

Lemma includes_only_pdf :
  includes "Only PDF" "Only PDF and EPUB files are accepted." = true.
Proof. reflexivity. Qed.

Lemma fileFilter_accepts (f : File.t) :
  fileFilter f = None <->
  Js.toLowerCase (extname (File.originalname f)) = ".pdf" \/
  Js.toLowerCase (extname (File.originalname f)) = ".epub".
Proof.
  unfold fileFilter. cbn [existsb].
  destruct (String.eqb_spec (Js.toLowerCase (extname (File.originalname f))) ".pdf")
    as [Ep|Np];
  [|destruct (String.eqb_spec (Js.toLowerCase (extname (File.originalname f)))
                              ".epub") as [Ee|Ne]];
    cbn [orb].
  - split; [now left|reflexivity].
  - split; [now right|reflexivity].
  - split; [intros H; discriminate H|]. intros [E|E]; [now elim Np|now elim Ne].
Qed.

(** X17: a file is let in exactly when the extension of its name, in lower
    case, is [.pdf] or [.epub]; the error raised for any other file is
    answered by the error middleware with status 400 and the text
    "Only PDF and EPUB files are accepted.", and nothing is logged. *)
Theorem other_files_are_refused (f : File.t) :
  (fileFilter f = None <->
   Js.toLowerCase (extname (File.originalname f)) = ".pdf" \/
   Js.toLowerCase (extname (File.originalname f)) = ".epub") /\
  (forall err, fileFilter f = Some err ->
     errorHandler err =
       (ErrorReply 400 "Only PDF and EPUB files are accepted.", [])).
Proof.
  split; [apply fileFilter_accepts|]. unfold fileFilter.
  destruct (existsb _ _); intros err H; [discriminate H|].
  injection H as <-. reflexivity.
Qed.

(** X18: for every file the filter lets in, the format of the entry tells
    the extension: PDF for [.pdf], EPUB for [.epub]. *)
Theorem accepted_format_is_true (f : File.t) :
  fileFilter f = None ->
  (ext_of f = ".pdf" /\ format_of (ext_of f) = "PDF") \/
  (ext_of f = ".epub" /\ format_of (ext_of f) = "EPUB").
Proof.
  intros H. destruct (proj1 (fileFilter_accepts f) H) as [E|E];
    unfold ext_of; rewrite E; [left|right]; split; reflexivity.
Qed.

End Protocol.

(** ** Scenarios *)

Section Scenarios.

#[local] Existing Instance scripted.
#[local] Existing Instance sample_config.
#[local] Existing Instance sample_path.

Lemma catalog_write_presents_fetched_token_witness :
  exists pre res books sha,
    World.trace
      (snd (run (handle (DeleteBook (admin_delete "7")))
                [found (Some "abc") (Entries three_books); committed])) =
      (pre ++ [(get_request "books.json", Resolved res);
               (delete_7_put, committed)])%list /\
    decode_books res = Return (books, sha) /\
    presented_token delete_7_put = sha /\
    (presented_token delete_7_put = None <-> Response.status res = 404).
Proof.
  apply (catalog_write_presents_fetched_token (remote := scripted)
           (config := sample_config) (node := sample_path)
           (DeleteBook (admin_delete "7"))
           [found (Some "abc") (Entries three_books); committed]).
  - vm_compute. right. left. reflexivity.
  - split; reflexivity.
  - reflexivity.
Defined.

(** C2 as stated fails from 2^53 on.  The only entry of the catalog has the
    positive integer id 2^53 = 9007199254740992; the sum of that id and 1
    is no double and rounds to 2^53, so the upload stores a second entry
    with the id 2^53: not the greatest id plus one, and not greater than
    the id that was there. *)
Lemma greatest_id_is_allocated_again :
  (forall b, In b crowded -> exists n, Book.id b = Some n /\ 0 < n) /\
  exists message book,
    fst (run (upload moby_dick "NOW")
             (smooth_upload (Some "abc") (Entries crowded))) =
      Return (UploadReply message book 2) /\
    In (put_request "books.json" (CatalogJson (crowded ++ [book]))
          "Update catalog — 2 books" (Some "abc"), committed)
       (World.trace
          (snd (run (upload moby_dick "NOW")
                    (smooth_upload (Some "abc") (Entries crowded))))) /\
    Book.id book = Some 9007199254740992 /\
    Book.id book <> Some (9007199254740992 + 1) /\
    exists b, In b crowded /\ Book.id b = Book.id book.
Proof.
  split.
  - intros b [<-|[]]. eexists. split; [reflexivity|lia].
  - eexists _, _. split; [reflexivity|].
    split; [vm_compute; do 3 right; left; reflexivity|].
    split; [reflexivity|]. split; [discriminate|].
    eexists. split; [left; reflexivity|reflexivity].
Qed.

Lemma upload_allocates_next_id_witness :
  exists pre res books sha book,
    World.trace (snd (run (upload moby_dick "NOW") moby_host)) =
      (pre ++ [(get_request "books.json", Resolved res);
               (moby_catalog_put, committed)])%list /\
    decode_books res = Return (books, sha) /\
    written_catalog moby_catalog_put = Some (books ++ [book])%list /\
    ((forall b, In b books ->
                exists n, Book.id b = Some n /\ 0 < n < 9007199254740992) ->
     exists n,
       Book.id book = Some n /\
       (books = [] -> n = 1) /\
       (books <> [] ->
        (exists b, In b books /\ Book.id b = Some (n - 1)) /\
        (forall b k, In b books -> Book.id b = Some k -> k <= n - 1)) /\
       (forall b k, In b books -> Book.id b = Some k -> k < n)).
Proof.
  apply (upload_allocates_next_id (remote := scripted) (config := sample_config)
           (node := sample_path) moby_dick "NOW" moby_host).
  - vm_compute. do 3 right. left. reflexivity.
  - split; reflexivity.
Defined.

(** C3 as stated fails for a file that is there but empty: the four checks
    pass, the host is called four times and the upload succeeds. *)
Lemma empty_file_is_uploaded :
  Upload.file empty_file_upload = Some (File.mk "blank.pdf" 0 "") /\
  (exists message book,
     fst (run (upload empty_file_upload "NOW")
              [absent; committed; absent; committed]) =
     Return (UploadReply message book 1)) /\
  List.length
    (World.trace
       (snd (run (upload empty_file_upload "NOW")
                 [absent; committed; absent; committed]))) = 4%nat.
Proof. split; [reflexivity|]. split; [eexists _, _|]; reflexivity. Qed.

Lemma upload_missing_field_witness :
  exists fld,
    missing_field untitled_upload = Some fld /\
    run (upload untitled_upload "NOW") [committed] =
      (Return (ErrorReply 400 (field_error fld)), World.mk [committed] [] []).
Proof.
  apply (upload_missing_field (remote := scripted) (config := sample_config)
           (node := sample_path) untitled_upload "NOW"
           [committed]).
  right. left. reflexivity.
Defined.


Lemma upload_blob_path_witness :
  World.trace (snd (run (upload moby_dick "NOW") moby_host)) =
    [(get_request "books/moby-dick-herman-melville.pdf", absent);
     (moby_blob_put, committed);
     (get_request "books.json", found (Some "abc") (Entries two_books));
     (moby_catalog_put, committed)] /\
  fst (run (upload moby_dick "NOW") moby_host) =
    Return (UploadReply
              (dquote ++ "Moby Dick" ++ dquote ++ " has been added to the library!")
              moby_entry 3) /\
  Book.file moby_entry = "books/moby-dick-herman-melville.pdf" /\
  Book.format moby_entry = "PDF" /\
  exists pre rq r books,
    World.trace (snd (run (upload moby_dick "NOW") moby_host)) =
      (pre ++ [(rq, r)])%list /\
    is_catalog_write rq /\
    written_catalog rq = Some (books ++ [moby_entry])%list /\
    failure (rq, r) = None.
Proof.
  split; [reflexivity|]. split; [reflexivity|].
  destruct (upload_blob_path (remote := scripted) (config := sample_config)
              (node := sample_path) moby_dick "NOW" moby_host sample_file
              "Moby Dick" "Herman Melville" "Fiction"
              eq_refl eq_refl eq_refl eq_refl) as (_ & _ & _ & _ & Hmoby).
  destruct (Hmoby eq_refl eq_refl eq_refl) as [_ Hstored].
  exact (Hstored _ _ _ eq_refl).
Defined.

(** C8 as stated fails twice.  "Other" is in the table and its entry is
    the default colour, so the default does not tell that a genre is
    missing from the table.  And the table is read with the genre as
    submitted, the entry stores it trimmed: " Fiction" is stored as
    "Fiction" with the default colour, not the colour of "Fiction". *)
Lemma genre_color_counterexamples :
  (exists message book total,
     fst (run (upload (with_genre "Other") "NOW")
              (smooth_upload None (Entries []))) =
       Return (UploadReply message book total) /\
     Book.genre book = "Other" /\
     own_property (Book.genre book) genreColors = Some "#4a4a4a" /\
     Book.color book = Hex "#4a4a4a") /\
  (exists message book total,
     fst (run (upload (with_genre " Fiction") "NOW")
              (smooth_upload None (Entries []))) =
       Return (UploadReply message book total) /\
     Book.genre book = "Fiction" /\
     own_property (Book.genre book) genreColors = Some "#9c3d2e" /\
     Book.color book = Hex "#4a4a4a").
Proof. split; eexists _, _, _; repeat split. Qed.

Lemma upload_genre_color_witness :
  exists genre books book,
    Js.truthy (Upload.genre (with_genre "Fiction")) = Some genre /\
    written_catalog
      (put_request "books.json"
         (CatalogJson
            [newBook sample_file "Moby Dick" "Herman Melville" "Fiction"
                     (with_genre "Fiction") "NOW" []])
         "Update catalog — 1 books" None) =
      Some (books ++ [book])%list /\
    Book.genre book = Js.trim genre /\
    (Js.trim genre = genre ->
     (forall c, own_property (Book.genre book) genreColors = Some c ->
                Book.color book = Hex c) /\
     (own_property (Book.genre book) genreColors = None ->
      ~ In (Book.genre book) Object_prototype_keys ->
      Book.color book = Hex "#4a4a4a")).
Proof.
  apply (upload_genre_color (remote := scripted) (config := sample_config)
           (node := sample_path) (with_genre "Fiction") "NOW"
           (smooth_upload None (Entries [])) _ committed).
  - vm_compute. do 3 right. left. reflexivity.
  - split; reflexivity.
Defined.

(** C9 as stated fails: the text sent to the client is the message of the
    error, which holds the status and the body the host answered. *)
Lemma host_answer_reaches_client :
  fst (run (upload moby_dick "NOW")
           [absent; failed 422 "sha was not supplied (octo/Pages)"]) =
    Return (ErrorReply 500
              "GitHub commit failed (422): sha was not supplied (octo/Pages)") /\
  fst (run (deleteBook (admin_delete "7"))
           [found (Some "abc") (Entries two_books);
            failed 409 "books.json does not match abc"]) =
    Return (ErrorReply 500
              "GitHub commit failed (409): books.json does not match abc").
Proof. split; reflexivity. Qed.

Lemma remote_failure_reply_witness :
  fst (run (handle (UploadBook moby_dick "NOW"))
           [absent; failed 422 "sha was not supplied"]) =
    Return (ErrorReply 500 "GitHub commit failed (422): sha was not supplied") /\
  In (Err "POST /api/upload: GitHub commit failed (422): sha was not supplied")
     (World.console
        (snd (run (handle (UploadBook moby_dick "NOW"))
                  [absent; failed 422 "sha was not supplied"]))).
Proof.
  apply (proj1 (remote_failure_reply (remote := scripted)
                  (config := sample_config) (node := sample_path)
                  (UploadBook moby_dick "NOW")
                  [absent; failed 422 "sha was not supplied"]
                  (put_request "books/moby-dick-herman-melville.pdf"
                     (FileBytes "%PDF-1.4")
                     "Add: Moby Dick by Herman Melville" None,
                   failed 422 "sha was not supplied")
                  "GitHub commit failed (422): sha was not supplied"
                  ltac:(vm_compute; right; left; reflexivity)
                  eq_refl)).
Defined.

(** C10 as stated fails: a document that holds a JSON value other than an
    array is listed as an empty catalog, and an upload replaces it. *)
Lemma non_array_catalog_is_read_as_empty :
  fst (run listBooks [found (Some "abc") NotArray]) =
    Return (BooksReply 0 []) /\
  (exists message book,
     fst (run (upload moby_dick "NOW") (smooth_upload (Some "abc") NotArray)) =
       Return (UploadReply message book 1)).
Proof. split; [reflexivity|eexists _, _; reflexivity]. Qed.

Lemma unparsable_catalog_fails_witness :
  exists error,
    fst (run (handle ListBooks)
             [found (Some "abc") (Unparsable "Unexpected end of JSON input")]) =
    Return (ErrorReply 500 error).
Proof.
  apply (proj1 (unparsable_catalog_fails (remote := scripted)
                  (config := sample_config) (node := sample_path) ListBooks
                  [found (Some "abc") (Unparsable "Unexpected end of JSON input")]
                  (Response.mk 200 ""
                     (JsonObject
                        (Data.mk (Some "abc")
                           (Unparsable "Unexpected end of JSON input"))))
                  ltac:(vm_compute; left; reflexivity) eq_refl I)).
Defined.

(** *** Runs of the further properties *)

Lemma upload_success_means_stored_witness :
  exists path blob_put r1 r2 res3 books sha catalog_put r4,
    World.trace (snd (run (upload moby_dick "NOW") moby_host)) =
      [(get_request path, r1); (blob_put, r2);
       (get_request "books.json", Resolved res3); (catalog_put, r4)] /\
    Request.method blob_put = PUT /\
    Request.url blob_put = contents_url path /\
    is_catalog_write catalog_put /\
    decode_books res3 = Return (books, sha) /\
    written_catalog catalog_put = Some (books ++ [moby_entry])%list /\
    3%nat = S (List.length books) /\
    (forall e, In e (World.trace (snd (run (upload moby_dick "NOW") moby_host))) ->
               failure e = None).
Proof.
  apply (upload_success_means_stored (remote := scripted)
           (config := sample_config) (node := sample_path) moby_dick "NOW"
           moby_host
           (dquote ++ "Moby Dick" ++ dquote ++ " has been added to the library!")
           moby_entry 3).
  reflexivity.
Defined.

Lemma blob_write_presents_lookup_token_witness :
  exists path res sha rest,
    World.trace (snd (run (upload moby_dick "NOW") moby_host)) =
      (get_request path, Resolved res) :: (moby_blob_put, committed) :: rest /\
    Request.url moby_blob_put = contents_url path /\
    decode_sha res = Return sha /\
    (forall token, sha = Some token -> token <> "" ->
                   presented_token moby_blob_put = Some token) /\
    (presented_token moby_blob_put = None -> sha = None \/ sha = Some "") /\
    (Response.status res = 404 -> presented_token moby_blob_put = None).
Proof.
  apply (blob_write_presents_lookup_token (remote := scripted)
           (config := sample_config) (node := sample_path) moby_dick "NOW"
           moby_host moby_blob_put committed).
  - vm_compute. right. left. reflexivity.
  - reflexivity.
  - intros [_ H]. vm_compute in H. discriminate H.
Defined.

Lemma upload_creates_catalog_witness :
  exists pre res,
    World.trace
      (snd (run (upload moby_dick "NOW") [absent; committed; absent; committed])) =
      (pre ++ [(get_request "books.json", Resolved res);
               (first_catalog_put, committed)])%list /\
    (Response.status res = 404 ->
     exists book,
       written_catalog first_catalog_put = Some [book] /\
       Book.id book = Some 1 /\
       presented_token first_catalog_put = None).
Proof.
  apply (upload_creates_catalog (remote := scripted) (config := sample_config)
           (node := sample_path) moby_dick "NOW"
           [absent; committed; absent; committed] first_catalog_put committed).
  - vm_compute. do 3 right. left. reflexivity.
  - split; reflexivity.
Defined.

Lemma catalog_failure_leaves_blob_witness :
  exists path blob_put r1 r2 mid,
    World.trace (snd (run (upload moby_dick "NOW") catalog_down)) =
      ((get_request path, r1) :: (blob_put, r2)
         :: mid ++ [(get_request "books.json", failed 503 "Service Unavailable")])%list /\
    Request.method blob_put = PUT /\
    Request.url blob_put = contents_url path /\
    failure (blob_put, r2) = None /\
    Forall (fun ev => Request.method (fst ev) = GET) mid /\
    fst (run (upload moby_dick "NOW") catalog_down) =
      Return (ErrorReply 500
                (client_text (UploadBook moby_dick "NOW")
                   "Failed to fetch books.json: 503")).
Proof.
  apply (catalog_failure_leaves_blob (remote := scripted)
           (config := sample_config) (node := sample_path) moby_dick "NOW"
           catalog_down
           (get_request "books.json", failed 503 "Service Unavailable")
           "Failed to fetch books.json: 503").
  - vm_compute. do 2 right. left. reflexivity.
  - left. reflexivity.
  - reflexivity.
Defined.

Lemma delete_removes_first_match_witness :
  exists res books sha n before removed after,
    World.trace
      (snd (run (deleteBook (admin_delete "7"))
                [found (Some "abc") (Entries three_books); committed])) =
      [(get_request "books.json", Resolved res); (delete_7_put, committed)] /\
    decode_books res = Return (books, sha) /\
    parseInt (Delete.id (admin_delete "7")) = Some n /\
    books = (before ++ removed :: after)%list /\
    Book.id removed = Some n /\
    (forall b, In b before -> Book.id b <> Some n) /\
    written_catalog delete_7_put = Some (before ++ after)%list.
Proof.
  apply (delete_removes_first_match (remote := scripted)
           (config := sample_config) (admin_delete "7")
           [found (Some "abc") (Entries three_books); committed]
           delete_7_put committed).
  - vm_compute. right. left. reflexivity.
  - split; reflexivity.
Defined.

Lemma delete_success_means_removed_witness :
  exists res books sha n before after catalog_put r2,
    World.trace
      (snd (run (deleteBook (admin_delete "7"))
                [found (Some "abc") (Entries three_books); committed])) =
      [(get_request "books.json", Resolved res); (catalog_put, r2)] /\
    is_catalog_write catalog_put /\
    decode_books res = Return (books, sha) /\
    parseInt (Delete.id (admin_delete "7")) = Some n /\
    books = (before ++ entry (Some 7) "B" :: after)%list /\
    Book.id (entry (Some 7) "B") = Some n /\
    (forall b, In b before -> Book.id b <> Some n) /\
    written_catalog catalog_put = Some (before ++ after)%list /\
    (forall e,
       In e (World.trace
               (snd (run (deleteBook (admin_delete "7"))
                         [found (Some "abc") (Entries three_books); committed]))) ->
       failure e = None).
Proof.
  apply (delete_success_means_removed (remote := scripted)
           (config := sample_config) (admin_delete "7")
           [found (Some "abc") (Entries three_books); committed]
           (dquote ++ "B" ++ dquote ++ " removed.") (entry (Some 7) "B")).
  reflexivity.
Defined.

Lemma list_is_read_only_witness :
  exists r,
    World.trace (snd (run listBooks [absent])) =
      [(get_request "books.json", r)] /\
    World.store (snd (run listBooks [absent])) =
      fst (serve [absent] (get_request "books.json")) /\
    (forall res, r = Resolved res -> Response.status res = 404 ->
       fst (run listBooks [absent]) = Return (BooksReply 0 [])) /\
    (forall count books,
       fst (run listBooks [absent]) = Return (BooksReply count books) ->
       count = List.length books).
Proof.
  exact (list_is_read_only (remote := scripted) (config := sample_config)
           [absent]).
Defined.

Lemma stored_text_is_trimmed_witness :
  exists books book,
    written_catalog moby_catalog_put = Some (books ++ [book])%list /\
    trimmed (Book.title book) /\ trimmed (Book.author book) /\
    trimmed (Book.genre book) /\ trimmed (Book.language book) /\
    trimmed (Book.description book).
Proof.
  apply (stored_text_is_trimmed (remote := scripted) (config := sample_config)
           (node := sample_path) moby_dick "NOW" moby_host moby_catalog_put
           committed).
  - vm_compute. do 3 right. left. reflexivity.
  - split; reflexivity.
Defined.

Lemma blank_field_is_stored_empty_witness :
  exists title author genre books book,
    Js.truthy (Upload.title blank_title_upload) = Some title /\
    Js.truthy (Upload.author blank_title_upload) = Some author /\
    Js.truthy (Upload.genre blank_title_upload) = Some genre /\
    written_catalog blank_title_put = Some (books ++ [book])%list /\
    (forallb Js.is_space (Js.chars title) = true -> Book.title book = "") /\
    (forallb Js.is_space (Js.chars author) = true -> Book.author book = "") /\
    (forallb Js.is_space (Js.chars genre) = true -> Book.genre book = "").
Proof.
  apply (blank_field_is_stored_empty (remote := scripted)
           (config := sample_config) (node := sample_path) blank_title_upload
           "NOW" [absent; committed; absent; committed] blank_title_put
           committed).
  - vm_compute. do 3 right. left. reflexivity.
  - split; reflexivity.
Defined.

Lemma upload_id_is_fresh_witness :
  exists pre res books sha book n,
    World.trace (snd (run (upload moby_dick "NOW") moby_host)) =
      (pre ++ [(get_request "books.json", Resolved res);
               (moby_catalog_put, committed)])%list /\
    decode_books res = Return (books, sha) /\
    written_catalog moby_catalog_put = Some (books ++ [book])%list /\
    Book.id book = Some n /\
    ((forall b k, In b books -> Book.id b = Some k ->
                  Z.abs k < 9007199254740992) ->
     (forall b k, In b books -> Book.id b = Some k -> k < n) /\
     (forall b, In b books -> Book.id b <> Some n)).
Proof.
  apply (upload_id_is_fresh (remote := scripted) (config := sample_config)
           (node := sample_path) moby_dick "NOW" moby_host moby_catalog_put
           committed).
  - vm_compute. do 3 right. left. reflexivity.
  - split; reflexivity.
Defined.

Lemma removed_id_can_come_back_witness :
  nextId ([entry (Some 3) "A"] ++ entry (Some 7) "B" :: []) = 7 + 1 /\
  nextId ([entry (Some 3) "A"] ++ []) <= 7.
Proof.
  apply (removed_id_can_come_back [entry (Some 3) "A"] [] (entry (Some 7) "B") 7).
  - reflexivity.
  - lia.
  - lia.
  - intros b [<-|[]]. exists 3. repeat split; lia.
Defined.

Lemma default_secret_opens_delete_witness :
  fst (run (@deleteBook scripted sample_config (admin_delete "7")) [absent]) <>
    Return (ErrorReply 401 "Unauthorized.") /\
  exists r rest,
    World.trace
      (snd (run (@deleteBook scripted sample_config (admin_delete "7")) [absent])) =
      (@get_request sample_config "books.json", r) :: rest.
Proof.
  apply (default_secret_opens_delete (remote := scripted) bare_env sample_config
           (admin_delete "7") [absent]); reflexivity.
Defined.

Lemma parseInt_reads_decimal_witness : parseInt (Js.showZ 7 ++ "abc") = Some 7.
Proof. apply (parseInt_reads_decimal 7 "abc"); reflexivity. Defined.

Lemma same_folded_text_same_path_witness :
  slugify "MOBY DICK" = slugify "Moby Dick" /\
  slugify "Herman MELVILLE" = slugify "herman melville" /\
  filePath_of "MOBY DICK" "Herman MELVILLE" ".pdf" =
  filePath_of "Moby Dick" "herman melville" ".pdf".
Proof.
  apply (same_folded_text_same_path "MOBY DICK" "Moby Dick" "Herman MELVILLE"
           "herman melville" ".pdf"); left; reflexivity.
Defined.

Lemma fileSize_rounds_to_tenth_witness : fileSize_of 52428 = "0.0 MB".
Proof.
  apply (proj2 (proj2 (proj2 (proj2 (fileSize_rounds_to_tenth 52428))))).
  reflexivity.
Defined.

Lemma other_files_are_refused_witness :
  errorHandler (new_Error "Only PDF and EPUB files are accepted.") =
    (ErrorReply 400 "Only PDF and EPUB files are accepted.", []).
Proof.
  apply (proj2 (other_files_are_refused (node := sample_path)
                  (File.mk "notes.txt" 12 "hello"))).
  reflexivity.
Defined.

Lemma accepted_format_is_true_witness :
  (ext_of sample_file = ".pdf" /\ format_of (ext_of sample_file) = "PDF") \/
  (ext_of sample_file = ".epub" /\ format_of (ext_of sample_file) = "EPUB").
Proof.
  apply (accepted_format_is_true (node := sample_path) sample_file).
  reflexivity.
Defined.

End Scenarios.
